(** * Quiz Bro: the quiz lifecycle and the dashboard aggregates

    A shallow embedding of the decision logic found in
    [src/components/dashboard/StudentDashboard.tsx] and in the teacher
    dashboard, together with the properties of its specification.

    Conventions of the embedding.
    - A JavaScript [string | null] field is an [option string]; the
      truthiness test [!x] is written out in [truthy].
    - A [Date] is represented by its time value: milliseconds since the epoch,
      or [None] for an invalid date (time value NaN).  [new Date()] is the
      reading of the clock, passed as [now].
    - [total_marks] is a [number].  In [Response.t] it is a [Z]: the records
      hold integral marks, and [averageScore] is the expression of the page on
      such marks, where double arithmetic is exact as long as sums stay below
      2^53 (in particular for percentages).  What the same expression does on
      arbitrary doubles, with their rounding, is [averageScore_number].
    - The record store is an outside service.  The one query whose filter the
      properties rely on, [.eq('is_published', true)], is modelled by the rows
      it keeps. *)

From Stdlib Require Import ZArith QArith Qround Qabs Lia String Ascii List Sorted.
From Stdlib Require Import Floats Uint63.
From stdpp Require Import base option list gmap strings.

Local Open Scope Z_scope.

(** ** Records of the store *)

(** [interface Quiz], with the optional [_count] of the teacher's rows. *)
Module Quiz.
Record t : Type := mk {
  id : string;
  title : string;
  description : string;
  duration : Z;
  is_published : bool;
  scheduled_for : option string;
  created_at : string;
  _count : option (Z * Z)
}.
End Quiz.

(** [interface Response]; [quiz] is the embedded [{ title, duration }]. *)
Module Response.
Record t : Type := mk {
  id : string;
  quiz_id : string;
  total_marks : Z;
  submitted_at : string;
  quiz : string * Z
}.
End Response.

(** ** JavaScript primitives used by the dashboards *)

(** Truthiness of a [string | null]: [null] and the empty string are falsy. *)
Definition truthy (v : option string) : bool :=
  match v with
  | None => false
  | Some EmptyString => false
  | Some (String _ _) => true
  end.

(** The time value of [new Date(s)].  Which strings an engine accepts beyond
    the ISO format is left to the engine, so the parser is a parameter; the
    empty string is an invalid date in every engine. *)
Class DateParser : Type := {
  Date_parse : string -> option Z;
  Date_parse_empty : Date_parse EmptyString = None
}.

(** [a <= b] on dates, [b] valid: a comparison with NaN is false. *)
Definition Date_le (a : option Z) (b : Z) : bool :=
  match a with
  | Some t => t <=? b
  | None => false
  end.

(** [Set.prototype.has] on a set of strings. *)
Definition Set_has (s : gset string) (x : string) : bool := bool_decide (x ∈ s).

(** [new Set(xs)]. *)
Definition new_Set (xs : list string) : gset string := list_to_set xs.

(** [x || []] on a possibly null array. *)
Definition or_empty {A : Type} (x : option (list A)) : list A :=
  match x with
  | Some l => l
  | None => []
  end.

(** The elements [Array.prototype.slice(start, end)] selects, with the
    relative-index rules of the language for negative bounds. *)
Definition slice_elems {A : Type} (this : list A) (start end_ : Z) : list A :=
  let len := Z.of_nat (length this) in
  let k := if start <? 0 then Z.max (len + start) 0 else Z.min start len in
  let final := if end_ <? 0 then Z.max (len + end_) 0 else Z.min end_ len in
  firstn (Z.to_nat (final - k)) (skipn (Z.to_nat k) this).

(** An array method seen as a transformer of its receiver: the value returned
    and the contents of the receiver afterwards. *)
Definition Method (A R : Type) : Type := list A -> R * list A.

(** [slice] builds a new array and leaves the receiver alone. *)
Definition Array_slice {A : Type} (start end_ : Z) : Method A (list A) :=
  fun this => (slice_elems this start end_, this).

(** The result of [a / b] on numbers: [None] stands for the non-finite
    outcomes (NaN, Infinity) of a zero divisor. *)
Definition Number_div (a b : Z) : option Q :=
  if b =? 0 then None else Some (inject_Z a / inject_Z b)%Q.

(** [Math.round]: the nearest integer, ties towards +Infinity. *)
Definition Math_round (x : Q) : Z := Qfloor (x + (1 # 2))%Q.

(** ** A parser for the ISO 8601 instants the store returns

    [YYYY-MM-DDTHH:mm:ss], an optional fraction of a second, then [Z] or an
    offset [+HH:mm] / [-HH:mm].  It gives the time value in milliseconds. *)
Module ISO8601.

Definition digit (c : ascii) : option Z :=
  let n := Z.of_nat (nat_of_ascii c) in
  if (48 <=? n) && (n <=? 57) then Some (n - 48) else None.

Fixpoint number (n : nat) (acc : Z) (s : string) : option (Z * string) :=
  match n, s with
  | O, _ => Some (acc, s)
  | S n', String c rest =>
      match digit c with
      | Some d => number n' (10 * acc + d) rest
      | None => None
      end
  | S _, EmptyString => None
  end.

Definition literal (c : ascii) (s : string) : option string :=
  match s with
  | String c' rest => if Ascii.eqb c c' then Some rest else None
  | EmptyString => None
  end.

(** Digits after the decimal point; only the first three count. *)
Fixpoint fraction (scale acc : Z) (s : string) : Z * string :=
  match s with
  | String c rest =>
      match digit c with
      | Some d => fraction (scale / 10) (acc + d * scale) rest
      | None => (acc, s)
      end
  | EmptyString => (acc, s)
  end.

Definition milliseconds (s : string) : option (Z * string) :=
  match s with
  | String "."%char (String c rest) =>
      match digit c with
      | Some _ => Some (fraction 100 0 (String c rest))
      | None => None
      end
  | _ => Some (0, s)
  end.

(** Offset from UTC in minutes. *)
Definition zone (s : string) : option Z :=
  match s with
  | String "Z"%char EmptyString => Some 0
  | String sign rest =>
      '(h, rest) ← number 2 0 rest;
      rest ← literal ":" rest;
      '(m, rest) ← number 2 0 rest;
      if negb (String.eqb rest EmptyString) || (23 <? h) || (59 <? m) then None
      else if Ascii.eqb sign "+" then Some (h * 60 + m)
      else if Ascii.eqb sign "-" then Some (- (h * 60 + m))
      else None
  | EmptyString => None
  end.

Definition leap (y : Z) : bool :=
  (y mod 4 =? 0) && (negb (y mod 100 =? 0) || (y mod 400 =? 0)).

Definition days_in_month (y m : Z) : Z :=
  if m =? 2 then (if leap y then 29 else 28)
  else if (m =? 4) || (m =? 6) || (m =? 9) || (m =? 11) then 30
  else 31.

(** Days between the epoch and a civil date of the Gregorian calendar. *)
Definition days_from_civil (y m d : Z) : Z :=
  let y' := if m <=? 2 then y - 1 else y in
  let era := y' / 400 in
  let yoe := y' - era * 400 in
  let mp := (m + 9) mod 12 in
  let doy := (153 * mp + 2) / 5 + d - 1 in
  let doe := yoe * 365 + yoe / 4 - yoe / 100 + doy in
  era * 146097 + doe - 719468.

Definition parse (s : string) : option Z :=
  '(y, s) ← number 4 0 s;
  s ← literal "-" s;
  '(mo, s) ← number 2 0 s;
  s ← literal "-" s;
  '(d, s) ← number 2 0 s;
  s ← literal "T" s;
  '(h, s) ← number 2 0 s;
  s ← literal ":" s;
  '(mi, s) ← number 2 0 s;
  s ← literal ":" s;
  '(sec, s) ← number 2 0 s;
  '(ms, s) ← milliseconds s;
  off ← zone s;
  if (mo <? 1) || (12 <? mo) || (d <? 1) || (days_in_month y mo <? d)
     || (23 <? h) || (59 <? mi) || (59 <? sec)
  then None
  else Some ((((days_from_civil y mo d * 24 + h) * 60 + mi - off) * 60 + sec) * 1000 + ms).

End ISO8601.

Definition ISO_dates : DateParser :=
  {| Date_parse := ISO8601.parse; Date_parse_empty := eq_refl |}.

(** ** Student dashboard *)

Section StudentDashboard.
Context `{DateParser}.

(** The filter of the quizzes query, [.eq('is_published', true)], on a row. *)
Definition eq_is_published_true (quiz : Quiz.t) : bool :=
  Bool.eqb (Quiz.is_published quiz) true.

(** The rows of the quizzes table that query returns. *)
Definition published_rows (table : list Quiz.t) : list Quiz.t :=
  List.filter eq_is_published_true table.

(** [new Set(responses?.map(r => r.quiz_id) || [])] *)
Definition attemptedQuizIds (responses : option (list Response.t)) : gset string :=
  new_Set (or_empty (option_map (List.map Response.quiz_id) responses)).

(** [quizzes?.filter(quiz => !attemptedQuizIds.has(quiz.id)) || []] *)
Definition filteredQuizzes (quizzes : option (list Quiz.t))
    (attemptedQuizIds : gset string) : list Quiz.t :=
  or_empty
    (option_map
       (List.filter (fun quiz => negb (Set_has attemptedQuizIds (Quiz.id quiz))))
       quizzes).

(** [fetchData], once both queries have answered without error: the values
    handed to [setAvailableQuizzes] and [setCompletedQuizzes]. *)
Definition fetchData (quizzes : option (list Quiz.t))
    (responses : option (list Response.t)) : list Quiz.t * list Response.t :=
  (filteredQuizzes quizzes (attemptedQuizIds responses), or_empty responses).

(** [new Date(v)] for a [string | null]: [null] converts to the epoch. *)
Definition new_Date (v : option string) : option Z :=
  match v with
  | Some s => Date_parse s
  | None => Some 0
  end.

(** [isQuizAvailable]; [now] is the value of [new Date()]. *)
Definition isQuizAvailable (quiz : Quiz.t) (now : Z) : bool :=
  if negb (truthy (Quiz.scheduled_for quiz)) then true
  else Date_le (new_Date (Quiz.scheduled_for quiz)) now.

(** What a card of the "Available Quizzes" grid shows for a quiz. *)
Record QuizCard : Type := {
  key : string;
  badge : string;
  disabled : bool;
  caption : string
}.

Definition renderQuiz (now : Z) (quiz : Quiz.t) : QuizCard :=
  let available := isQuizAvailable quiz now in
  {| key := Quiz.id quiz;
     badge := if available then "Available" else "Scheduled";
     disabled := negb available;
     caption := if available then "Start Quiz" else "Not Available Yet" |}.

(** [availableQuizzes.map(...)] *)
Definition renderQuizzes (now : Z) (availableQuizzes : list Quiz.t) : list QuizCard :=
  List.map (renderQuiz now) availableQuizzes.

(** The average shown in the "Average Score" card, on integral marks;
    [None] would be a non-finite number.  On integers the sum and the
    rounded quotient of doubles are exact while the sum stays below 2^53,
    so they are computed exactly here; [averageScore_number] is the same
    expression on doubles of any kind. *)
Definition averageScore (completedQuizzes : list Response.t) : option Z :=
  if 0 <? Z.of_nat (length completedQuizzes)
  then
    option_map Math_round
      (Number_div
         (fold_left (fun acc quiz => acc + Response.total_marks quiz) completedQuizzes 0)
         (Z.of_nat (length completedQuizzes)))
  else Some 0.

(** The three figures of the "Quick Stats" row. *)
Record StudentStats : Type := {
  availableCount : nat;
  completedCount : nat;
  average : option Z
}.

Definition studentStats (availableQuizzes : list Quiz.t)
    (completedQuizzes : list Response.t) : StudentStats :=
  {| availableCount := length availableQuizzes;
     completedCount := length completedQuizzes;
     average := averageScore completedQuizzes |}.

(** [completedQuizzes.slice(0, 5)] *)
Definition recentResults : Method Response.t (list Response.t) := Array_slice 0 5.

(** *** The lifecycle of a row, as the dashboard realises it

    A row of the quizzes table that the query filter rejects never reaches
    the page.  A row that the client-side filter keeps is shown with the
    badge and the button state [isQuizAvailable] selects. *)
Inductive Availability : Type := NotPublished | ScheduledFuture | Available.

Definition availability (quiz : Quiz.t) (now : Z) : Availability :=
  if eq_is_published_true quiz then
    if disabled (renderQuiz now quiz) then ScheduledFuture else Available
  else NotPublished.

Definition visibleToStudent (quiz : Quiz.t) (attemptedQuizIds : gset string) : bool :=
  eq_is_published_true quiz && negb (Set_has attemptedQuizIds (Quiz.id quiz)).

Definition attemptable (quiz : Quiz.t) (now : Z) (attemptedQuizIds : gset string) : bool :=
  visibleToStudent quiz attemptedQuizIds && negb (disabled (renderQuiz now quiz)).

(** *** Vocabulary of the properties *)

(** The instant a schedule string denotes. *)
Definition scheduled_at (quiz : Quiz.t) (t : Z) : Prop :=
  exists s, Quiz.scheduled_for quiz = Some s /\ Date_parse s = Some t.

(** The schedule of a row is [null] or the text of a timestamp. *)
Definition valid_schedule (quiz : Quiz.t) : Prop :=
  forall s, Quiz.scheduled_for quiz = Some s -> exists t, Date_parse s = Some t.

(** [a] was submitted no earlier than [b]. *)
Definition not_before (a b : Response.t) : Prop :=
  match Date_parse (Response.submitted_at a), Date_parse (Response.submitted_at b) with
  | Some x, Some y => y <= x
  | _, _ => False
  end.

Definition most_recent_first (l : list Response.t) : Prop :=
  StronglySorted not_before l.

End StudentDashboard.

(** ** Teacher dashboard *)

Record QuizCounts : Type := {
  total : nat;
  published : nat;
  scheduled : nat
}.

(** [quizzes.length], [quizzes.filter(q => q.is_published).length] and
    [quizzes.filter(q => q.scheduled_for).length]. *)
Definition quizCounts (quizzes : list Quiz.t) : QuizCounts :=
  {| total := length quizzes;
     published := length (List.filter (fun q => Quiz.is_published q) quizzes);
     scheduled := length (List.filter (fun q => truthy (Quiz.scheduled_for q)) quizzes) |}.

(** How many elements of a list satisfy a test. *)
Fixpoint number_of {A : Type} (p : A -> bool) (l : list A) : nat :=
  match l with
  | [] => O
  | x :: l' => if p x then S (number_of p l') else number_of p l'
  end.

Definition has_schedule (q : Quiz.t) : bool :=
  match Quiz.scheduled_for q with
  | Some _ => true
  | None => false
  end.

(** No schedule is the empty string. *)
Definition schedule_not_blank (q : Quiz.t) : Prop :=
  Quiz.scheduled_for q <> Some EmptyString.

(** ** Vocabulary of the aggregate properties *)

(** The sum of the marks of a list of responses. *)
Fixpoint sum_marks (l : list Response.t) : Z :=
  match l with
  | [] => 0
  | r :: l' => Response.total_marks r + sum_marks l'
  end.

(** The arithmetic mean of the marks, a rational. *)
Definition mean (l : list Response.t) : Q :=
  (inject_Z (sum_marks l) / inject_Z (Z.of_nat (length l)))%Q.

(** A mark on the percentage scale. *)
Definition percentage (r : Response.t) : Prop :=
  0 <= Response.total_marks r <= 100.

(** ** The average over arbitrary numbers

    The expression of the "Average Score" card on IEEE doubles, the
    kernel's [float]: [reduce] adds from left to right and rounds each sum,
    the quotient is rounded once more, and [Math.round] then works on the
    exact value of that double. *)

(** The value of a number as a rational; [None] for NaN and the
    infinities. *)
Definition Number_value (x : float) : option Q :=
  match Prim2SF x with
  | S754_zero _ => Some 0%Q
  | S754_finite s m e =>
      Some ((if s then Qopp else fun q => q) (inject_Z (Z.pos m) * Qpower 2 e)%Q)
  | S754_infinity _ => None
  | S754_nan => None
  end.

(** [Math.round] on a double; [None] when the result is not finite. *)
Definition Math_round_number (x : float) : option Z :=
  option_map Math_round (Number_value x).

(** The [length] of an array as a number. *)
Definition Number_of_length (n : nat) : float :=
  PrimFloat.of_uint63 (Uint63.of_Z (Z.of_nat n)).

(** An integral mark as a number. *)
Definition Number_of_mark (m : Z) : float :=
  if m <? 0 then (- PrimFloat.of_uint63 (Uint63.of_Z (- m)))%float
  else PrimFloat.of_uint63 (Uint63.of_Z m).

(** The expression of l.158-160 on the marks of the completed responses. *)
Definition averageScore_number (total_marks : list float) : option Z :=
  if 0 <? Z.of_nat (length total_marks)
  then
    Math_round_number
      (fold_left PrimFloat.add total_marks 0%float
       / Number_of_length (length total_marks))%float
  else Some 0.

(** The exact sum and the exact arithmetic mean of finite numbers. *)
Fixpoint sum_values (xs : list float) : option Q :=
  match xs with
  | [] => Some 0%Q
  | x :: xs' =>
      match Number_value x, sum_values xs' with
      | Some v, Some s => Some (v + s)%Q
      | _, _ => None
      end
  end.

Definition mean_value (xs : list float) : option Q :=
  option_map (fun s => (s / inject_Z (Z.of_nat (length xs)))%Q) (sum_values xs).

(** [n] is an integer nearest to [m]. *)
Definition nearest_integer (n : Z) (m : Q) : Prop :=
  forall k : Z, (Qabs (inject_Z n - m) <= Qabs (inject_Z k - m))%Q.

(** The marks 56.1, 47.8 and 98.6, as the doubles these decimals denote. *)
Definition fractional_marks : list float :=
  [561 / 10; 478 / 10; 986 / 10]%float.

(** ** Sample rows *)

Definition quiz_row (id : string) (is_published : bool)
    (scheduled_for : option string) : Quiz.t :=
  Quiz.mk id "Algebra" "Linear equations" 30 is_published scheduled_for
    "2024-04-01T08:00:00Z" None.

Definition response_row (id quiz_id : string) (total_marks : Z)
    (submitted_at : string) : Response.t :=
  Response.mk id quiz_id total_marks submitted_at ("Algebra", 30).

(** A published quiz scheduled for 1 May 2024, 10:00 UTC. *)
Definition may_quiz : Quiz.t := quiz_row "q1" true (Some "2024-05-01T10:00:00Z").

Definition may_first_10h : Z := 1714557600000.

Definition sample_quizzes : list Quiz.t :=
  [ may_quiz;
    quiz_row "q2" false None;
    quiz_row "q3" true None;
    quiz_row "q4" false (Some "2023-01-15T09:30:00+00:00") ].

(** The scenarios of the specification, at [may_first_10h]: a quiz scheduled
    the day before, one scheduled the day after, and one already answered. *)
Definition quiz_A : Quiz.t := quiz_row "A" true (Some "2024-04-30T10:00:00Z").
Definition quiz_B : Quiz.t := quiz_row "B" true (Some "2024-05-02T10:00:00Z").
Definition quiz_C : Quiz.t := quiz_row "C" true (Some "2024-04-30T10:00:00Z").

Definition response_to_C : Response.t :=
  response_row "r" "C" 75 "2024-04-30T11:00:00Z".

(** Three responses scoring 80, 90 and 70. *)
Definition three_responses : list Response.t :=
  [ response_row "r3" "q3" 80 "2024-05-03T10:00:00Z";
    response_row "r2" "q2" 90 "2024-05-02T10:00:00Z";
    response_row "r1" "q1" 70 "2024-05-01T10:00:00Z" ].

(** Seven responses as the store returns them, most recent first. *)
Definition seven_responses : list Response.t :=
  [ response_row "r7" "q7" 55 "2024-05-07T10:00:00Z";
    response_row "r6" "q6" 60 "2024-05-06T10:00:00Z";
    response_row "r5" "q5" 100 "2024-05-05T18:45:10.250+02:00";
    response_row "r4" "q4" 0 "2024-05-04T10:00:00Z";
    response_row "r3" "q3" 80 "2024-05-03T10:00:00Z";
    response_row "r2" "q2" 90 "2024-05-02T10:00:00Z";
    response_row "r1" "q1" 70 "2024-05-01T10:00:00Z" ].

(** Two responses listed oldest first. *)
Definition oldest_first : list Response.t :=
  [ response_row "r1" "q1" 70 "2024-05-01T10:00:00Z";
    response_row "r2" "q2" 90 "2024-05-02T10:00:00Z" ].

(** * The handlers and the pages around the engines *)

(** ** Effects and query outcomes *)

(** What a handler does to the outside: a query sent to the store, a line on
    the console, a toast. *)
Inductive Effect : Type :=
| Query (table : string)
| ConsoleError (label : string)
| Toast (title description variant : string).

(** What awaiting a query gives: the [{ data, error }] object it resolves
    to, or a rejection. *)
Inductive Outcome (A : Type) : Type :=
| Resolved (data : option (list A)) (error : option string)
| Rejected.
Arguments Resolved {A} data error.
Arguments Rejected {A}.

(** [x || 0] on a possibly missing count. *)
Definition or_zero (v : option Z) : Z :=
  match v with
  | Some n => if n =? 0 then 0 else n
  | None => 0
  end.

(** [s || fallback] on a string: the empty string is falsy. *)
Definition or_text (s fallback : string) : string :=
  match s with
  | EmptyString => fallback
  | String _ _ => s
  end.

(** ** The student dashboard as a component *)
Module StudentDashboard.

Record State : Type := {
  availableQuizzes : list Quiz.t;
  completedQuizzes : list Response.t;
  loading : bool
}.

(** The initial values of the three [useState] hooks. *)
Definition initial : State :=
  {| availableQuizzes := []; completedQuizzes := []; loading := true |}.

Definition setLoading (b : bool) (st : State) : State :=
  {| availableQuizzes := availableQuizzes st;
     completedQuizzes := completedQuizzes st;
     loading := b |}.

(** The [try] block of [fetchData]: the queries are awaited one after the
    other and an error object is thrown as soon as it is seen.  The result
    is the state once both setters have run, or [None] when something was
    thrown, with the queries sent so far. *)
Definition try_block (quizzesQuery : Outcome Quiz.t)
    (responsesQuery : Outcome Response.t) (st : State) : option State * list Effect :=
  match quizzesQuery with
  | Rejected => (None, [Query "quizzes"])
  | Resolved _ (Some _) => (None, [Query "quizzes"])
  | Resolved quizzes None =>
      match responsesQuery with
      | Rejected => (None, [Query "quizzes"; Query "responses"])
      | Resolved _ (Some _) => (None, [Query "quizzes"; Query "responses"])
      | Resolved responses None =>
          (Some {| availableQuizzes := fst (fetchData quizzes responses);
                   completedQuizzes := snd (fetchData quizzes responses);
                   loading := loading st |},
           [Query "quizzes"; Query "responses"])
      end
  end.

(** [fetchData] with its [catch] and [finally]. *)
Definition fetchData (quizzesQuery : Outcome Quiz.t)
    (responsesQuery : Outcome Response.t) (st : State) : State * list Effect :=
  match try_block quizzesQuery responsesQuery st with
  | (Some st', sent) => (setLoading false st', sent)
  | (None, sent) =>
      (setLoading false st,
       sent ++ [ConsoleError "Error fetching data:";
                Toast "Error" "Failed to fetch dashboard data" "destructive"])
  end.

(** The line under the duration of a card: absent without a schedule,
    otherwise "Available now" or "Available from" the date, which is
    [None] when the date is invalid. *)
Inductive ScheduleLine : Type :=
| AvailableNow
| AvailableFrom (date : option Z).

Definition scheduleLine `{DateParser} (now : Z) (quiz : Quiz.t) : option ScheduleLine :=
  let available := isQuizAvailable quiz now in
  if truthy (Quiz.scheduled_for quiz)
  then Some (if available then AvailableNow
             else AvailableFrom (new_Date (Quiz.scheduled_for quiz)))
  else None.

(** The figures of the "Quick Stats" row for a state. *)
Definition stats (st : State) : StudentStats :=
  studentStats (availableQuizzes st) (completedQuizzes st).

End StudentDashboard.

(** ** The teacher dashboard as a component *)
Module TeacherDashboard.

Record State : Type := {
  quizzes : list Quiz.t;
  loading : bool
}.

Definition initial : State := {| quizzes := []; loading := true |}.


(** A card of the "Your Quizzes" grid.  [scheduledDate] is the date of the
    "Scheduled:" row when the row is shown, before it is formatted. *)
Record Card : Type := {
  key : string;
  title : string;
  badge : string;
  description : string;
  duration : Z;
  questions : Z;
  attempts : Z;
  scheduledDate : option (option Z)
}.

Definition renderQuiz `{DateParser} (quiz : Quiz.t) : Card :=
  {| key := Quiz.id quiz;
     title := Quiz.title quiz;
     badge := if Quiz.is_published quiz then "Published" else "Draft";
     description := or_text (Quiz.description quiz) "No description";
     duration := Quiz.duration quiz;
     questions := or_zero (option_map fst (Quiz._count quiz));
     attempts := or_zero (option_map snd (Quiz._count quiz));
     scheduledDate :=
       if truthy (Quiz.scheduled_for quiz)
       then Some (new_Date (Quiz.scheduled_for quiz))
       else None |}.

(** [quizzes.map(...)] *)
Definition renderQuizzes `{DateParser} (quizzes : list Quiz.t) : list Card :=
  List.map renderQuiz quizzes.

End TeacherDashboard.

(** ** The sign-in page *)
Module AuthPage.

Module LoginForm.
Record t : Type := mk { email : string; password : string }.
End LoginForm.

Module SignupForm.
Record t : Type := mk {
  email : string;
  password : string;
  confirmPassword : string;
  role : string
}.
End SignupForm.

Record State : Type := {
  loading : bool;
  error : option string;
  success : option string;
  loginForm : LoginForm.t;
  signupForm : SignupForm.t
}.

(** The initial values of the five [useState] hooks. *)
Definition initial : State :=
  {| loading := false;
     error := None;
     success := None;
     loginForm := LoginForm.mk EmptyString EmptyString;
     signupForm := SignupForm.mk EmptyString EmptyString EmptyString "student" |}.

Definition setLoading (b : bool) (st : State) : State :=
  {| loading := b; error := error st; success := success st;
     loginForm := loginForm st; signupForm := signupForm st |}.

Definition setError (e : option string) (st : State) : State :=
  {| loading := loading st; error := e; success := success st;
     loginForm := loginForm st; signupForm := signupForm st |}.

Definition setSuccess (s : option string) (st : State) : State :=
  {| loading := loading st; error := error st; success := s;
     loginForm := loginForm st; signupForm := signupForm st |}.

Definition setLoginForm (f : LoginForm.t) (st : State) : State :=
  {| loading := loading st; error := error st; success := success st;
     loginForm := f; signupForm := signupForm st |}.

Definition setSignupForm (f : SignupForm.t) (st : State) : State :=
  {| loading := loading st; error := error st; success := success st;
     loginForm := loginForm st; signupForm := f |}.

(** The calls made to the session provider. *)
Inductive Call : Type :=
| SignIn (email password : string)
| SignUp (email password role : string).

(** [handleLogin]; [result] is the [error] of the object [signIn] resolves
    to, reduced to its message. *)
Definition handleLogin (result : option string) (st : State) : State * list Call :=
  let form := loginForm st in
  let st := setError None (setLoading true st) in
  let call := SignIn (LoginForm.email form) (LoginForm.password form) in
  let st :=
    match result with
    | Some message => setError (Some message) st
    | None => st
    end in
  (setLoading false st, [call]).

Definition account_created : string :=
  "Account created successfully! Please check your email to verify your account.".

(** [handleSignup]; [result] is what [signUp] would answer.  A string is
    the sequence of its code units, so [String.length] is [.length]. *)
Definition handleSignup (result : option string) (st : State) : State * list Call :=
  let form := signupForm st in
  let st := setSuccess None (setError None (setLoading true st)) in
  if negb (String.eqb (SignupForm.password form) (SignupForm.confirmPassword form)) then
    (setLoading false (setError (Some "Passwords do not match") st), [])
  else if Z.of_nat (String.length (SignupForm.password form)) <? 6 then
    (setLoading false (setError (Some "Password must be at least 6 characters") st), [])
  else
    let call :=
      SignUp (SignupForm.email form) (SignupForm.password form) (SignupForm.role form) in
    match result with
    | Some message => (setLoading false (setError (Some message) st), [call])
    | None => (setLoading false (setSuccess (Some account_created) st), [call])
    end.

(** The two items of the role selector. *)
Inductive RoleItem : Type := StudentItem | TeacherItem.

Definition value (item : RoleItem) : string :=
  match item with
  | StudentItem => "student"
  | TeacherItem => "teacher"
  end.

(** What a visitor can do on the page. *)
Inductive Event : Type :=
| LoginEmailChange (v : string)
| LoginPasswordChange (v : string)
| SignupEmailChange (v : string)
| SignupRoleChange (item : RoleItem)
| SignupPasswordChange (v : string)
| SignupConfirmChange (v : string)
| LoginSubmit (result : option string)
| SignupSubmit (result : option string).

(** The [onChange] handlers spread the form and replace one field. *)
Definition step (e : Event) (st : State) : State * list Call :=
  let lf := loginForm st in
  let sf := signupForm st in
  match e with
  | LoginEmailChange v =>
      (setLoginForm (LoginForm.mk v (LoginForm.password lf)) st, [])
  | LoginPasswordChange v =>
      (setLoginForm (LoginForm.mk (LoginForm.email lf) v) st, [])
  | SignupEmailChange v =>
      (setSignupForm
         (SignupForm.mk v (SignupForm.password sf) (SignupForm.confirmPassword sf)
            (SignupForm.role sf)) st, [])
  | SignupRoleChange item =>
      (setSignupForm
         (SignupForm.mk (SignupForm.email sf) (SignupForm.password sf)
            (SignupForm.confirmPassword sf) (value item)) st, [])
  | SignupPasswordChange v =>
      (setSignupForm
         (SignupForm.mk (SignupForm.email sf) v (SignupForm.confirmPassword sf)
            (SignupForm.role sf)) st, [])
  | SignupConfirmChange v =>
      (setSignupForm
         (SignupForm.mk (SignupForm.email sf) (SignupForm.password sf) v
            (SignupForm.role sf)) st, [])
  | LoginSubmit result => handleLogin result st
  | SignupSubmit result => handleSignup result st
  end.

(** A session on the page: the events in order, the calls they cause. *)
Fixpoint run (events : list Event) (st : State) : State * list Call :=
  match events with
  | [] => (st, [])
  | e :: events' =>
      let (st', calls) := step e st in
      let (st'', calls') := run events' st' in
      (st'', calls ++ calls')
  end.

End AuthPage.

(** ** The index page *)
Module Index.

Inductive View : Type :=
| LoadingScreen
| AuthPageView
| TeacherDashboardView
| StudentDashboardView
| SettingUp.

(** [userRole === role] for a role that may be null. *)
Definition role_is (userRole : option string) (role : string) : bool :=
  match userRole with
  | Some r => String.eqb r role
  | None => false
  end.

(** The component [Index]: what it returns for the values of [useAuth]. *)
Definition Index (user : option string) (userRole : option string)
    (loading : bool) : View :=
  if loading then LoadingScreen
  else
    match user with
    | None => AuthPageView
    | Some _ =>
        if role_is userRole "teacher" then TeacherDashboardView
        else if role_is userRole "student" then StudentDashboardView
        else SettingUp
    end.

End Index.

(** ** Vocabulary of the component properties *)

(** The toast of a failed [fetchData]. *)
Definition fetch_failed : Effect :=
  Toast "Error" "Failed to fetch dashboard data" "destructive".


(** Some response of the list answers the quiz with this id. *)
Definition answered (responses : list Response.t) (id : string) : Prop :=
  exists r, In r responses /\ Response.quiz_id r = id.

(** The sign-up form passes the two checks of [handleSignup]. *)
Definition passwords_accepted (form : AuthPage.SignupForm.t) : Prop :=
  AuthPage.SignupForm.password form = AuthPage.SignupForm.confirmPassword form /\
  (6 <= String.length (AuthPage.SignupForm.password form))%nat.

(** A role the selector offers. *)
Definition offered_role (role : string) : Prop :=
  role = "student" \/ role = "teacher".

(** ** More sample rows *)

(** A published quiz whose schedule is a text that is no date. *)
Definition quiz_with_bad_schedule : Quiz.t := quiz_row "q5" true (Some "next Monday").

(** The three responses again, each with a better mark. *)
Definition three_better_responses : list Response.t :=
  [ response_row "r3" "q3" 85 "2024-05-03T10:00:00Z";
    response_row "r2" "q2" 90 "2024-05-02T10:00:00Z";
    response_row "r1" "q1" 100 "2024-05-01T10:00:00Z" ].

(** * Properties *)

(** ** Reflection lemmas for the primitives *)

Lemma eq_is_published_true_spec (quiz : Quiz.t) :
  eq_is_published_true quiz = Quiz.is_published quiz.
Proof. unfold eq_is_published_true. by destruct (Quiz.is_published quiz). Qed.

Lemma Set_has_true (s : gset string) (x : string) : Set_has s x = true <-> x ∈ s.
Proof. unfold Set_has. apply bool_decide_eq_true. Qed.

Lemma Set_has_false (s : gset string) (x : string) : Set_has s x = false <-> x ∉ s.
Proof. unfold Set_has. apply bool_decide_eq_false. Qed.

Lemma truthy_Some (s : string) : truthy (Some s) = true <-> s <> EmptyString.
Proof. destruct s; simpl; split; congruence. Qed.

Section Lifecycle.
Context `{DateParser}.

(** A schedule that parses is not the empty string, hence truthy. *)
Lemma parsed_truthy (s : string) (t : Z) :
  Date_parse s = Some t -> truthy (Some s) = true.
Proof.
  intros Hs. apply truthy_Some. intros ->.
  rewrite Date_parse_empty in Hs. discriminate.
Qed.

(** A schedule that is null or the text of a timestamp is never blank. *)
Lemma valid_schedule_not_blank (quiz : Quiz.t) :
  valid_schedule quiz -> schedule_not_blank quiz.
Proof.
  intros Hvalid Hblank. destruct (Hvalid _ Hblank) as [t Ht].
  rewrite Date_parse_empty in Ht. discriminate.
Qed.

Lemma isQuizAvailable_unscheduled (quiz : Quiz.t) (now : Z) :
  Quiz.scheduled_for quiz = None -> isQuizAvailable quiz now = true.
Proof. intros Hs. unfold isQuizAvailable. by rewrite Hs. Qed.

Lemma isQuizAvailable_scheduled (quiz : Quiz.t) (now t : Z) :
  scheduled_at quiz t -> isQuizAvailable quiz now = (t <=? now).
Proof.
  intros (s & Hs & Ht). unfold isQuizAvailable.
  rewrite Hs, (parsed_truthy s t Ht). simpl. by rewrite Ht.
Qed.

(** [isQuizAvailable] itself never looks at the publication flag: that
    check is the query's. *)
Lemma isQuizAvailable_ignores_publication (q : Quiz.t) (b : bool) (now : Z) :
  isQuizAvailable
    (Quiz.mk (Quiz.id q) (Quiz.title q) (Quiz.description q) (Quiz.duration q) b
       (Quiz.scheduled_for q) (Quiz.created_at q) (Quiz._count q)) now
  = isQuizAvailable q now.
Proof. reflexivity. Qed.

Lemma availability_published (quiz : Quiz.t) (now : Z) :
  Quiz.is_published quiz = true ->
  availability quiz now =
    if isQuizAvailable quiz now then Available else ScheduledFuture.
Proof.
  intros Hp. unfold availability. rewrite eq_is_published_true_spec, Hp.
  simpl. by destruct (isQuizAvailable quiz now).
Qed.

Lemma availability_Available (quiz : Quiz.t) (now : Z) :
  availability quiz now = Available <->
  Quiz.is_published quiz = true /\ isQuizAvailable quiz now = true.
Proof.
  unfold availability. rewrite eq_is_published_true_spec. simpl.
  destruct (Quiz.is_published quiz), (isQuizAvailable quiz now); simpl;
    split; try tauto; try congruence; intros [? ?]; congruence.
Qed.

(** The rows the page lists are the rows of the table that are visible. *)
Lemma filteredQuizzes_published_rows (table : list Quiz.t) (ids : gset string) :
  filteredQuizzes (Some (published_rows table)) ids
  = List.filter (fun quiz => visibleToStudent quiz ids) table.
Proof.
  unfold filteredQuizzes, published_rows, visibleToStudent. simpl.
  induction table as [|q table IH]; simpl; [done|].
  destruct (eq_is_published_true q); simpl; [|done].
  destruct (Set_has ids (Quiz.id q)); simpl; by rewrite IH.
Qed.

Lemma elem_of_attemptedQuizIds (responses : list Response.t) (id : string) :
  id ∈ attemptedQuizIds (Some responses) <->
  exists r, In r responses /\ Response.quiz_id r = id.
Proof.
  unfold attemptedQuizIds, new_Set. simpl.
  rewrite elem_of_list_to_set, list_elem_of_In, in_map_iff.
  split; intros (r & H1 & H2); exists r; tauto.
Qed.

(** What [fetchData] stores as available: the rows of the table that are
    visible given the quizzes the student has answered. *)
Lemma fetchData_available (table : list Quiz.t) (responses : option (list Response.t)) :
  fst (fetchData (Some (published_rows table)) responses)
  = List.filter (fun quiz => visibleToStudent quiz (attemptedQuizIds responses)) table.
Proof. apply filteredQuizzes_published_rows. Qed.

(** C1.  The dashboard classifies a quiz whose schedule is null or a
    timestamp as follows: NotPublished when the publication flag is false;
    otherwise ScheduledFuture when a schedule is present and later than
    now; otherwise Available.  The boundary is inclusive: a published quiz
    scheduled for exactly now is Available. *)
Theorem availability_classifies (quiz : Quiz.t) (now : Z) :
  valid_schedule quiz ->
  (Quiz.is_published quiz = false -> availability quiz now = NotPublished) /\
  (Quiz.is_published quiz = true ->
     (forall t, scheduled_at quiz t -> now < t ->
        availability quiz now = ScheduledFuture) /\
     (~ (exists t, scheduled_at quiz t /\ now < t) ->
        availability quiz now = Available) /\
     (scheduled_at quiz now -> availability quiz now = Available)).
Proof.
  intros Hvalid. split.
  - intros Hp. unfold availability. by rewrite eq_is_published_true_spec, Hp.
  - intros Hp. rewrite (availability_published _ _ Hp). repeat split.
    + intros t Ht Hlt. rewrite (isQuizAvailable_scheduled _ _ _ Ht).
      by destruct (Z.leb_spec t now); [lia|].
    + intros Hnot. destruct (Quiz.scheduled_for quiz) as [s|] eqn:Hs.
      * destruct (Hvalid s Hs) as [t Ht].
        assert (Hat : scheduled_at quiz t) by (exists s; by rewrite Hs).
        rewrite (isQuizAvailable_scheduled _ _ _ Hat).
        destruct (Z.leb_spec t now); [done|].
        exfalso. apply Hnot. by exists t.
      * by rewrite (isQuizAvailable_unscheduled _ _ Hs).
    + intros Hat. rewrite (isQuizAvailable_scheduled _ _ _ Hat).
      by rewrite Z.leb_refl.
Qed.

(** C3.  A quiz is visible to a student iff its publication flag is true
    and its id is not among the attempted ids; the list the page keeps is
    exactly the visible rows of the table; an unpublished quiz is never
    visible, whatever its schedule. *)
Theorem visibleToStudent_iff (quiz : Quiz.t) (ids : gset string) :
  (visibleToStudent quiz ids = true <->
     Quiz.is_published quiz = true /\ Quiz.id quiz ∉ ids) /\
  (forall table,
     In quiz (filteredQuizzes (Some (published_rows table)) ids) <->
     In quiz table /\ Quiz.is_published quiz = true /\ Quiz.id quiz ∉ ids) /\
  (Quiz.is_published quiz = false ->
     visibleToStudent quiz ids = false /\
     forall table, ~ In quiz (filteredQuizzes (Some (published_rows table)) ids)).
Proof.
  assert (Hiff : visibleToStudent quiz ids = true <->
                 Quiz.is_published quiz = true /\ Quiz.id quiz ∉ ids).
  { unfold visibleToStudent.
    rewrite andb_true_iff, negb_true_iff, Set_has_false, eq_is_published_true_spec.
    tauto. }
  assert (Hlist : forall table,
     In quiz (filteredQuizzes (Some (published_rows table)) ids) <->
     In quiz table /\ Quiz.is_published quiz = true /\ Quiz.id quiz ∉ ids).
  { intros table. rewrite filteredQuizzes_published_rows, filter_In. tauto. }
  split; [exact Hiff|]. split; [exact Hlist|].
  intros Hp. split.
  - apply not_true_is_false. intros Hv.
    apply Hiff in Hv. destruct Hv. congruence.
  - intros table Hin. apply Hlist in Hin. destruct Hin as (_ & Hq & _). congruence.
Qed.

(** C2.  A quiz is attemptable iff it is visible to the student and its
    availability is Available; a quiz whose id is among the attempted ids
    is not attemptable, whatever its schedule; the cards with an enabled
    button are those of the attemptable rows of the table. *)
Theorem attemptable_iff (quiz : Quiz.t) (now : Z) (ids : gset string) :
  (attemptable quiz now ids = true <->
     visibleToStudent quiz ids = true /\ availability quiz now = Available) /\
  (Quiz.id quiz ∈ ids -> attemptable quiz now ids = false) /\
  (forall table,
     List.filter (fun card => negb (disabled card))
       (renderQuizzes now (filteredQuizzes (Some (published_rows table)) ids))
     = List.map (renderQuiz now)
         (List.filter (fun q => attemptable q now ids) table)).
Proof.
  split; [split|split].
  - unfold attemptable. rewrite andb_true_iff, negb_true_iff.
    intros [Hv Hd]. split; [done|].
    unfold availability, visibleToStudent in *.
    apply andb_true_iff in Hv. destruct Hv as [-> _]. by rewrite Hd.
  - intros [Hv Ha]. unfold attemptable. rewrite Hv.
    unfold availability in Ha.
    destruct (eq_is_published_true quiz); [|discriminate].
    destruct (disabled (renderQuiz now quiz)); [discriminate|done].
  - intros Hin. unfold attemptable, visibleToStudent.
    apply Set_has_true in Hin. rewrite Hin. simpl.
    by rewrite andb_false_r.
  - intros table. rewrite filteredQuizzes_published_rows.
    unfold renderQuizzes, attemptable.
    induction table as [|q table IH]; [done|].
    cbn [List.filter]. destruct (visibleToStudent q ids); cbn [andb]; [|done].
    cbn [List.map List.filter].
    destruct (disabled (renderQuiz now q)); cbn [negb List.map]; by rewrite IH.
Qed.

End Lifecycle.

(** ** Aggregates of the student dashboard *)

Lemma fold_left_marks (l : list Response.t) (acc : Z) :
  fold_left (fun acc quiz => acc + Response.total_marks quiz) l acc
  = acc + sum_marks l.
Proof.
  revert acc. induction l as [|r l IH]; intros acc; simpl; [lia|].
  rewrite IH. lia.
Qed.

(** [Math.round] of a quotient of integers, in integer arithmetic. *)
Lemma Math_round_quotient (s n : Z) :
  0 < n -> Math_round (inject_Z s / inject_Z n) = (2 * s + n) / (2 * n).
Proof.
  intros Hn. destruct n as [|p|p]; try lia.
  unfold Math_round, Qfloor, Qplus, Qdiv, Qmult, Qinv, inject_Z. simpl.
  f_equal; lia.
Qed.

Lemma Math_round_bounds (s n : Z) :
  0 < n ->
  2 * n * ((2 * s + n) / (2 * n)) <= 2 * s + n < 2 * n * ((2 * s + n) / (2 * n)) + 2 * n.
Proof.
  intros Hn.
  pose proof (Z.div_mod (2 * s + n) (2 * n) ltac:(lia)) as Hdm.
  pose proof (Z.mod_pos_bound (2 * s + n) (2 * n) ltac:(lia)) as Hmod.
  lia.
Qed.

Lemma averageScore_nonempty (l : list Response.t) :
  l <> [] ->
  averageScore l
  = Some ((2 * sum_marks l + Z.of_nat (length l)) / (2 * Z.of_nat (length l))).
Proof.
  intros Hl. unfold averageScore, Number_div.
  assert (Hlen : 0 < Z.of_nat (length l)) by (destruct l; [done|simpl; lia]).
  destruct (Z.ltb_spec 0 (Z.of_nat (length l))); [|lia].
  destruct (Z.eqb_spec (Z.of_nat (length l)) 0); [lia|].
  simpl. rewrite fold_left_marks, Z.add_0_l.
  by rewrite Math_round_quotient.
Qed.

Lemma averageScore_is_round_mean (l : list Response.t) :
  l <> [] -> averageScore l = Some (Math_round (mean l)).
Proof.
  intros Hl. rewrite (averageScore_nonempty l Hl). unfold mean.
  assert (Hlen : 0 < Z.of_nat (length l)) by (destruct l; [done|simpl; lia]).
  by rewrite Math_round_quotient.
Qed.

(** Distance from an integer to a quotient of integers, cleared of
    denominators. *)
Lemma Qabs_diff_quotient (k s : Z) (p : positive) :
  (Qabs (inject_Z k - inject_Z s / inject_Z (Z.pos p)) == Z.abs (k * Z.pos p - s) # p)%Q.
Proof.
  unfold Qabs, Qminus, Qplus, Qopp, Qdiv, Qmult, Qinv, inject_Z, Qeq. simpl.
  f_equal; lia.
Qed.

Lemma length_pos_nonempty {A : Type} (l : list A) :
  l <> [] -> exists p, Z.of_nat (length l) = Z.pos p.
Proof.
  intros Hl. destruct l as [|x l]; [done|].
  exists (Pos.of_succ_nat (length l)). simpl. lia.
Qed.

(** C4, as the code has it.  For a non-empty list of completed responses
    whose marks are integers on the percentage scale, from 0 to 100, the
    average score is the arithmetic mean of the marks rounded to the nearest
    integer: it is [Math.round] of the mean, lies within one half of it, and
    no integer is closer.  For marks 80, 90 and 70 it is 80.  The percentage
    scale is the domain on which [averageScore] is the expression of the
    page: there every sum of doubles is exact. *)
Theorem averageScore_rounded_mean_of_percentages
    (availableQuizzes : list Quiz.t) (completed : list Response.t) :
  completed <> [] ->
  Forall percentage completed ->
  (exists n : Z,
     average (studentStats availableQuizzes completed) = Some n /\
     n = Math_round (mean completed) /\
     (Qabs (inject_Z n - mean completed) <= 1 # 2)%Q /\
     (forall k : Z,
        (Qabs (inject_Z n - mean completed) <= Qabs (inject_Z k - mean completed))%Q)) /\
  (forall r1 r2 r3 : Response.t,
     Response.total_marks r1 = 80 ->
     Response.total_marks r2 = 90 ->
     Response.total_marks r3 = 70 ->
     average (studentStats availableQuizzes [r1; r2; r3]) = Some 80).
Proof.
  intros Hne _. split.
  - set (s := sum_marks completed).
    destruct (length_pos_nonempty completed Hne) as [p Hp].
    exists ((2 * s + Z.pos p) / (2 * Z.pos p)).
    pose proof (Math_round_bounds s (Z.pos p) ltac:(lia)) as Hb.
    set (n := (2 * s + Z.pos p) / (2 * Z.pos p)) in *.
    assert (Hround : Math_round (mean completed) = n).
    { unfold mean. fold s. rewrite Hp. by rewrite Math_round_quotient. }
    split; [|split; [|split]].
    + simpl. rewrite (averageScore_is_round_mean _ Hne). by rewrite Hround.
    + by rewrite Hround.
    + unfold mean. fold s. rewrite Hp, Qabs_diff_quotient.
      unfold Qle. simpl. lia.
    + intros k. unfold mean. fold s. rewrite Hp, !Qabs_diff_quotient.
      unfold Qle. simpl.
      apply Z.mul_le_mono_nonneg_r; [lia|].
      destruct (Z.lt_trichotomy k n) as [Hk|[->|Hk]]; [|lia|].
      * assert ((n - k) * Z.pos p >= Z.pos p) by nia. lia.
      * assert ((k - n) * Z.pos p >= Z.pos p) by nia. lia.
  - intros r1 r2 r3 H1 H2 H3. simpl. unfold averageScore. simpl.
    rewrite H1, H2, H3. reflexivity.
Qed.

(** C5.  With no completed response the average score is 0; the average is
    a number for every list: whenever the length guard lets the division
    run, the divisor is not zero. *)
Theorem averageScore_empty_guarded :
  (forall availableQuizzes : list Quiz.t,
     average (studentStats availableQuizzes []) = Some 0) /\
  (forall (availableQuizzes : list Quiz.t) (completed : list Response.t),
     average (studentStats availableQuizzes completed) <> None) /\
  (forall (completed : list Response.t) (s : Z),
     (0 <? Z.of_nat (length completed)) = true ->
     Number_div s (Z.of_nat (length completed)) <> None).
Proof.
  split; [done|]. split.
  - intros availableQuizzes completed. simpl.
    destruct completed as [|r l]; [done|].
    by rewrite averageScore_nonempty.
  - intros completed s Hguard. apply Z.ltb_lt in Hguard.
    unfold Number_div.
    by destruct (Z.eqb_spec (Z.of_nat (length completed)) 0); [lia|].
Qed.

Lemma sum_marks_percentages (l : list Response.t) :
  Forall percentage l -> 0 <= sum_marks l <= 100 * Z.of_nat (length l).
Proof.
  induction 1 as [|r l Hr _ IH]; simpl length; simpl sum_marks; [lia|].
  unfold percentage in Hr. lia.
Qed.

(** C10.  When every mark lies between 0 and 100, so does the average
    score (0 for the empty list). *)
Theorem averageScore_percentage
    (availableQuizzes : list Quiz.t) (completed : list Response.t) :
  Forall percentage completed ->
  exists n : Z,
    average (studentStats availableQuizzes completed) = Some n /\ 0 <= n <= 100.
Proof.
  intros Hall. simpl.
  destruct (decide (completed = [])) as [->|Hne].
  - exists 0. split; [done|lia].
  - rewrite (averageScore_nonempty _ Hne).
    eexists; split; [reflexivity|].
    pose proof (sum_marks_percentages _ Hall) as Hsum.
    destruct (length_pos_nonempty completed Hne) as [p Hp].
    rewrite Hp in *.
    pose proof (Math_round_bounds (sum_marks completed) (Z.pos p) ltac:(lia)) as Hb.
    set (n := (2 * sum_marks completed + Z.pos p) / (2 * Z.pos p)) in *.
    split; nia.
Qed.

(** ** Counts of the teacher dashboard *)

Lemma length_filter_number_of {A : Type} (p : A -> bool) (l : list A) :
  length (List.filter p l) = number_of p l.
Proof.
  induction l as [|x l IH]; simpl; [done|].
  destruct (p x); simpl; by rewrite IH.
Qed.

Lemma number_of_ext {A : Type} (p q : A -> bool) (l : list A) :
  Forall (fun x => p x = q x) l -> number_of p l = number_of q l.
Proof.
  induction 1 as [|x l Hx _ IH]; simpl; [done|].
  rewrite Hx. by rewrite IH.
Qed.

(** Without any assumption: the "scheduled" figure counts the truthy
    schedules. *)
Lemma scheduled_counts_truthy (quizzes : list Quiz.t) :
  scheduled (quizCounts quizzes)
  = number_of (fun q => truthy (Quiz.scheduled_for q)) quizzes.
Proof. simpl. apply length_filter_number_of. Qed.

Lemma truthy_has_schedule (q : Quiz.t) :
  schedule_not_blank q -> truthy (Quiz.scheduled_for q) = has_schedule q.
Proof.
  unfold schedule_not_blank, has_schedule.
  destruct (Quiz.scheduled_for q) as [[|c s]|]; simpl; congruence.
Qed.

(** C6.  For a list of quizzes none of whose schedules is the empty string,
    the counts are: total, the length of the list; published, the number of
    quizzes whose publication flag is true; scheduled, the number of quizzes
    whose schedule is not null, whatever instant it denotes.  On the empty
    list all three are 0. *)
Theorem quizCounts_counts (quizzes : list Quiz.t) :
  Forall schedule_not_blank quizzes ->
  total (quizCounts quizzes) = length quizzes /\
  published (quizCounts quizzes) = number_of Quiz.is_published quizzes /\
  scheduled (quizCounts quizzes) = number_of has_schedule quizzes /\
  quizCounts [] = {| total := 0; published := 0; scheduled := 0 |}.
Proof.
  intros Hall. split; [done|]. split; [|split; [|done]].
  - simpl. apply length_filter_number_of.
  - rewrite scheduled_counts_truthy. apply number_of_ext.
    eapply Forall_impl; [exact Hall|]. apply truthy_has_schedule.
Qed.

(** ** Filtering by the attempt history *)

Lemma filter_not_attempted_sublist (quizzes : list Quiz.t) (A B : gset string) :
  A ⊆ B ->
  sublist
    (List.filter (fun quiz => negb (Set_has B (Quiz.id quiz))) quizzes)
    (List.filter (fun quiz => negb (Set_has A (Quiz.id quiz))) quizzes).
Proof.
  intros HAB. induction quizzes as [|q quizzes IH]; simpl; [constructor|].
  destruct (Set_has A (Quiz.id q)) eqn:HA; simpl.
  - apply Set_has_true in HA.
    assert (HB : Set_has B (Quiz.id q) = true) by (apply Set_has_true; set_solver).
    by rewrite HB.
  - destruct (Set_has B (Quiz.id q)); simpl; by constructor.
Qed.

(** C9.  Enlarging the set of attempted ids can only remove quizzes: the
    list kept with the larger set is a sublist of the list kept with the
    smaller one, a quiz that was not visible stays so, and the count of
    available quizzes does not grow. *)
Theorem filtering_antimonotone
    (quizzes : option (list Quiz.t)) (A B : gset string) :
  A ⊆ B ->
  sublist (filteredQuizzes quizzes B) (filteredQuizzes quizzes A) /\
  (forall quiz : Quiz.t,
     visibleToStudent quiz A = false -> visibleToStudent quiz B = false) /\
  (forall completed : list Response.t,
     (availableCount (studentStats (filteredQuizzes quizzes B) completed)
      <= availableCount (studentStats (filteredQuizzes quizzes A) completed))%nat).
Proof.
  intros HAB.
  assert (Hsub : sublist (filteredQuizzes quizzes B) (filteredQuizzes quizzes A)).
  { unfold filteredQuizzes. destruct quizzes as [l|]; simpl; [|constructor].
    by apply filter_not_attempted_sublist. }
  split; [exact Hsub|]. split.
  - intros quiz. unfold visibleToStudent.
    rewrite !andb_false_iff, !negb_false_iff, !Set_has_true.
    intros [Hp|HA]; [by left|right]. set_solver.
  - intros completed. simpl. by apply sublist_length.
Qed.

(** ** Recent results *)

Lemma slice_elems_prefix {A : Type} (this : list A) (limit : Z) :
  0 <= limit -> slice_elems this 0 limit = firstn (Z.to_nat limit) this.
Proof.
  intros Hlimit. unfold slice_elems.
  destruct (Z.ltb_spec limit 0); [lia|]. simpl.
  rewrite (Z.min_l 0) by lia. rewrite Z.sub_0_r.
  change (skipn (Z.to_nat 0) this) with this.
  destruct (Z.le_ge_cases limit (Z.of_nat (length this))) as [Hle|Hge].
  - by rewrite Z.min_l.
  - rewrite Z.min_r by done. rewrite Nat2Z.id.
    rewrite firstn_all. symmetry. apply firstn_all2. lia.
Qed.

Lemma StronglySorted_firstn {A : Type} (R : A -> A -> Prop) (n : nat) (l : list A) :
  StronglySorted R l -> StronglySorted R (firstn n l).
Proof.
  revert l. induction n as [|n IH]; intros l Hl; simpl; [constructor|].
  destruct l as [|x l]; [constructor|].
  apply StronglySorted_inv in Hl. destruct Hl as [Hl Hx].
  constructor; [by apply IH|]. by apply Forall_take.
Qed.

Section RecentResults.
Context `{DateParser}.

(** C7, as the code has it.  [recentResults] does not sort: it is
    [slice(0, 5)], and for every limit [slice(0, limit)] returns the first
    [limit] entries of its receiver (all of them when there are fewer) and
    leaves the receiver as it was.  Hence for a list that is already
    ordered by submission time, most recent first, the result is ordered
    in the same way; with 7 such responses the 5 most recent are shown. *)
Theorem recentResults_of_ordered (completed : list Response.t) (limit : Z) :
  most_recent_first completed ->
  0 <= limit ->
  fst (Array_slice 0 limit completed) = firstn (Z.to_nat limit) completed /\
  most_recent_first (fst (Array_slice 0 limit completed)) /\
  length (fst (Array_slice 0 limit completed))
    = Nat.min (Z.to_nat limit) (length completed) /\
  snd (Array_slice 0 limit completed) = completed /\
  recentResults completed = Array_slice 0 5 completed /\
  (length completed = 7%nat ->
   length (fst (recentResults completed)) = 5%nat /\
   most_recent_first (fst (recentResults completed)) /\
   snd (recentResults completed) = completed).
Proof.
  intros Hsorted Hlimit.
  assert (Hprefix : forall n, 0 <= n ->
    fst (Array_slice 0 n completed) = firstn (Z.to_nat n) completed).
  { intros n Hn. simpl. by apply slice_elems_prefix. }
  split; [by apply Hprefix|]. split.
  { rewrite Hprefix by done. by apply StronglySorted_firstn. }
  split.
  { rewrite Hprefix by done. apply length_firstn. }
  split; [done|]. split; [done|].
  intros Hlen. unfold recentResults. rewrite Hprefix by lia.
  split; [|split; [|done]].
  - rewrite length_firstn, Hlen. reflexivity.
  - by apply StronglySorted_firstn.
Qed.

End RecentResults.

(** * Properties of the handlers and the pages *)

(** ** Availability over time *)

Section AvailabilityOverTime.
Context `{DateParser}.

(** X1.  Availability only grows with time: a quiz that can be started at
    one instant can be started at every later instant. *)
Theorem isQuizAvailable_monotone (quiz : Quiz.t) (now later : Z) :
  now <= later ->
  isQuizAvailable quiz now = true ->
  isQuizAvailable quiz later = true.
Proof.
  intros Hle. unfold isQuizAvailable.
  destruct (truthy (Quiz.scheduled_for quiz)); simpl; [|done].
  destruct (new_Date (Quiz.scheduled_for quiz)) as [t|]; simpl; [|done].
  rewrite !Z.leb_le. lia.
Qed.

(** X2.  A schedule that is a non-empty text but not a date locks the quiz
    for ever: at no instant is it available, so a published one stays
    ScheduledFuture and cannot be attempted. *)
Theorem unparseable_schedule_never_available (quiz : Quiz.t) (s : string) :
  Quiz.scheduled_for quiz = Some s ->
  s <> EmptyString ->
  Date_parse s = None ->
  forall now : Z,
    isQuizAvailable quiz now = false /\
    (Quiz.is_published quiz = true -> availability quiz now = ScheduledFuture) /\
    (forall ids, attemptable quiz now ids = false).
Proof.
  intros Hs Hne Hparse now.
  assert (Hfalse : isQuizAvailable quiz now = false).
  { unfold isQuizAvailable. rewrite Hs.
    rewrite (proj2 (truthy_Some s) Hne). simpl. by rewrite Hparse. }
  split; [exact Hfalse|]. split.
  - intros Hp. by rewrite (availability_published _ _ Hp), Hfalse.
  - intros ids. unfold attemptable. simpl. rewrite Hfalse. simpl.
    apply andb_false_r.
Qed.

(** X3.  The card of a quiz agrees with itself: its button is disabled
    exactly when the line under the duration reads "Available from" the
    scheduled date, and a card without that line is enabled at every
    instant. *)
Theorem scheduleLine_agrees_with_button (quiz : Quiz.t) (now : Z) :
  (disabled (renderQuiz now quiz) = true <->
   StudentDashboard.scheduleLine now quiz
   = Some (StudentDashboard.AvailableFrom (new_Date (Quiz.scheduled_for quiz)))) /\
  (StudentDashboard.scheduleLine now quiz = None ->
   forall t, disabled (renderQuiz t quiz) = false).
Proof.
  unfold StudentDashboard.scheduleLine, renderQuiz, isQuizAvailable. simpl.
  destruct (truthy (Quiz.scheduled_for quiz)); simpl.
  - split; [|discriminate].
    destruct (Date_le (new_Date (Quiz.scheduled_for quiz)) now); simpl;
      split; congruence.
  - split; [split; discriminate|done].
Qed.

End AvailabilityOverTime.

(** ** [fetchData] as a handler *)

(** X4.  [fetchData] always ends with the loading flag down.  When it has
    raised its toast the two lists are as they were before; when it has
    not, both queries resolved without error and the lists are the ones
    computed from their data. *)
Theorem fetchData_outcome (quizzesQuery : Outcome Quiz.t)
    (responsesQuery : Outcome Response.t) (st : StudentDashboard.State) :
  let st' := fst (StudentDashboard.fetchData quizzesQuery responsesQuery st) in
  let effects := snd (StudentDashboard.fetchData quizzesQuery responsesQuery st) in
  StudentDashboard.loading st' = false /\
  (In fetch_failed effects ->
   StudentDashboard.availableQuizzes st' = StudentDashboard.availableQuizzes st /\
   StudentDashboard.completedQuizzes st' = StudentDashboard.completedQuizzes st) /\
  (~ In fetch_failed effects ->
   exists quizzes responses,
     quizzesQuery = Resolved quizzes None /\
     responsesQuery = Resolved responses None /\
     StudentDashboard.availableQuizzes st'
     = filteredQuizzes quizzes (attemptedQuizIds responses) /\
     StudentDashboard.completedQuizzes st' = or_empty responses).
Proof.
  unfold StudentDashboard.fetchData, StudentDashboard.try_block, fetch_failed.
  destruct quizzesQuery as [quizzes [e|]|]; simpl.
  1, 3: split; [done|]; split; [done|]; intros Hnot; exfalso; apply Hnot; tauto.
  destruct responsesQuery as [responses [e|]|]; simpl.
  1, 3: split; [done|]; split; [done|]; intros Hnot; exfalso; apply Hnot; tauto.
  split; [done|]. split.
  - intros [Hq|[Hq|[]]]; discriminate.
  - intros _. by exists quizzes, responses.
Qed.

(** X5.  The quizzes query is sent first and once; the responses query is
    sent if and only if the quizzes query resolved without an error. *)
Theorem fetchData_queries (quizzesQuery : Outcome Quiz.t)
    (responsesQuery : Outcome Response.t) (st : StudentDashboard.State) :
  let effects := snd (StudentDashboard.fetchData quizzesQuery responsesQuery st) in
  (exists rest, effects = Query "quizzes" :: rest /\ ~ In (Query "quizzes") rest) /\
  (In (Query "responses") effects <-> exists data, quizzesQuery = Resolved data None).
Proof.
  unfold StudentDashboard.fetchData, StudentDashboard.try_block.
  destruct quizzesQuery as [quizzes [e|]|]; simpl.
  1, 3: split;
    [eexists; split; [reflexivity|]; simpl; intros [Hq|[Hq|[]]]; discriminate
    |split; [intros [Hq|[Hq|[Hq|[]]]]; discriminate|intros [d Hd]; discriminate]].
  destruct responsesQuery as [responses [e|]|]; simpl.
  all: split;
    [eexists; split; [reflexivity|]; simpl; intuition discriminate
    |split; [intros _; by eexists|intros _; tauto]].
Qed.

(** X6.  After a successful [fetchData] the two lists never overlap: no
    quiz kept as available is the quiz of a completed response, and every
    available quiz is one the query returned. *)
Theorem fetchData_no_overlap (quizzes : option (list Quiz.t))
    (responses : option (list Response.t)) (st : StudentDashboard.State) :
  let st' :=
    fst (StudentDashboard.fetchData (Resolved quizzes None) (Resolved responses None) st) in
  (forall q r,
     In q (StudentDashboard.availableQuizzes st') ->
     In r (StudentDashboard.completedQuizzes st') ->
     Response.quiz_id r <> Quiz.id q) /\
  (forall q, In q (StudentDashboard.availableQuizzes st') -> In q (or_empty quizzes)).
Proof.
  simpl. unfold filteredQuizzes.
  destruct quizzes as [qs|]; simpl; [|split; intros; contradiction].
  split.
  - intros q r Hq Hr Heq. apply filter_In in Hq. destruct Hq as [_ Hq].
    apply negb_true_iff, Set_has_false in Hq. apply Hq.
    destruct responses as [rs|]; simpl in Hr; [|contradiction].
    apply elem_of_attemptedQuizIds. by exists r.
  - intros q Hq. apply filter_In in Hq. tauto.
Qed.

(** ** The split of the fetched quizzes *)

Lemma filter_split_Permutation {A : Type} (p : A -> bool) (l : list A) :
  List.filter (fun x => negb (p x)) l ++ List.filter p l ≡ₚ l.
Proof.
  induction l as [|x l IH]; simpl; [done|].
  destruct (p x); simpl.
  - rewrite <- Permutation_middle. by constructor.
  - by constructor.
Qed.

(** X7.  The client-side filter splits the fetched quizzes in two: the
    ones kept as available and the ones already answered make up the
    fetched list again, each quiz once, so the available count is the
    fetched count less the number of answered quizzes. *)
Theorem filteredQuizzes_partition (quizzes : list Quiz.t) (ids : gset string) :
  filteredQuizzes (Some quizzes) ids
    ++ List.filter (fun quiz => Set_has ids (Quiz.id quiz)) quizzes ≡ₚ quizzes /\
  (availableCount (studentStats (filteredQuizzes (Some quizzes) ids) [])
   + number_of (fun quiz => Set_has ids (Quiz.id quiz)) quizzes
   = length quizzes)%nat.
Proof.
  assert (Hperm : filteredQuizzes (Some quizzes) ids
    ++ List.filter (fun quiz => Set_has ids (Quiz.id quiz)) quizzes ≡ₚ quizzes).
  { unfold filteredQuizzes. simpl.
    apply (filter_split_Permutation (fun quiz => Set_has ids (Quiz.id quiz))). }
  split; [exact Hperm|].
  simpl. rewrite <- length_filter_number_of, <- length_app.
  by apply Permutation_length.
Qed.

Lemma filter_all {A : Type} (p : A -> bool) (l : list A) :
  List.filter p l = l <-> Forall (fun x => p x = true) l.
Proof.
  induction l as [|x l IH]; simpl.
  - split; [constructor|done].
  - destruct (p x) eqn:Hp.
    + split.
      * intros Heq. injection Heq as Heq. constructor; [done|]. by apply IH.
      * intros Hall. apply Forall_cons in Hall. destruct Hall as [_ Hall].
        f_equal. by apply IH.
    + split.
      * intros Heq. exfalso.
        assert (Hlen : (length (List.filter p l) <= length l)%nat)
          by apply filter_length_le.
        rewrite Heq in Hlen. simpl in Hlen. lia.
      * intros Hall. apply Forall_cons in Hall. destruct Hall as [Hx _]. congruence.
Qed.

(** X8.  The filter keeps the whole fetched list exactly when no fetched
    quiz has been answered.  In particular all fetched quizzes are
    available when the responses are null, and nothing is available when
    the quizzes are null. *)
Theorem filteredQuizzes_keeps_all (quizzes : list Quiz.t) (ids : gset string) :
  (filteredQuizzes (Some quizzes) ids = quizzes <->
   forall quiz, In quiz quizzes -> Quiz.id quiz ∉ ids) /\
  fst (fetchData (Some quizzes) None) = quizzes /\
  (forall responses, fst (fetchData None responses) = []).
Proof.
  assert (Hiff : filteredQuizzes (Some quizzes) ids = quizzes <->
                 forall quiz, In quiz quizzes -> Quiz.id quiz ∉ ids).
  { unfold filteredQuizzes. simpl. rewrite filter_all, List.Forall_forall.
    split; intros Hall quiz Hin.
    - by apply Set_has_false, negb_true_iff, Hall.
    - by apply negb_true_iff, Set_has_false, Hall. }
  split; [exact Hiff|]. split; [|done].
  unfold fetchData. simpl. unfold filteredQuizzes. simpl.
  apply filter_all, List.Forall_forall. intros quiz _.
  apply negb_true_iff, Set_has_false.
  unfold attemptedQuizIds, new_Set. simpl. set_solver.
Qed.

(** X9.  Only which quizzes have been answered matters: two lists of
    responses that answer the same quizzes, in any order and any number of
    times, leave the same quizzes available. *)
Theorem fetchData_same_answered (quizzes : option (list Quiz.t))
    (responses responses' : list Response.t) :
  (forall id, answered responses id <-> answered responses' id) ->
  fst (fetchData quizzes (Some responses)) = fst (fetchData quizzes (Some responses')).
Proof.
  intros Hsame. unfold fetchData. simpl. f_equal.
  apply set_eq. intros id. rewrite !elem_of_attemptedQuizIds. apply Hsame.
Qed.

(** ** More on the average score *)

Lemma averageScore_formula (l : list Response.t) :
  averageScore l
  = if decide (l = []) then Some 0
    else Some ((2 * sum_marks l + Z.of_nat (length l)) / (2 * Z.of_nat (length l))).
Proof.
  destruct (decide (l = [])) as [->|Hne]; [done|]. by apply averageScore_nonempty.
Qed.

Lemma sum_marks_Permutation (l l' : list Response.t) :
  l ≡ₚ l' -> sum_marks l = sum_marks l'.
Proof. induction 1; simpl; lia. Qed.

(** X10.  On integral percentages the average score does not depend on
    the order of the responses. *)
Theorem averageScore_Permutation (l l' : list Response.t) :
  Forall percentage l ->
  l ≡ₚ l' -> averageScore l = averageScore l'.
Proof.
  intros _ Hperm. rewrite !averageScore_formula.
  rewrite (sum_marks_Permutation _ _ Hperm), (Permutation_length Hperm).
  destruct (decide (l = [])) as [->|Hne].
  - apply Permutation_nil_l in Hperm. by subst.
  - destruct (decide (l' = [])) as [->|Hne']; [|done].
    apply Permutation_nil_r in Hperm. by subst.
Qed.

Lemma sum_marks_between (lo hi : Z) (l : list Response.t) :
  Forall (fun r => lo <= Response.total_marks r <= hi) l ->
  lo * Z.of_nat (length l) <= sum_marks l <= hi * Z.of_nat (length l).
Proof.
  induction 1 as [|r l Hr _ IH]; simpl length; simpl sum_marks; [lia|].
  rewrite Nat2Z.inj_succ. lia.
Qed.

(** X11.  On the percentage scale the average score of a non-empty list
    lies between the lowest and the highest mark: if every mark is an
    integer between [lo] and [hi], themselves between 0 and 100, so is the
    average.  In particular equal marks average to that mark. *)
Theorem averageScore_between (lo hi : Z) (l : list Response.t) :
  l <> [] ->
  0 <= lo ->
  hi <= 100 ->
  Forall (fun r => lo <= Response.total_marks r <= hi) l ->
  exists n, averageScore l = Some n /\ lo <= n <= hi.
Proof.
  intros Hne _ _ Hall. rewrite (averageScore_nonempty _ Hne).
  eexists; split; [reflexivity|].
  pose proof (sum_marks_between _ _ _ Hall) as Hsum.
  destruct (length_pos_nonempty l Hne) as [p Hp]. rewrite Hp in *.
  pose proof (Math_round_bounds (sum_marks l) (Z.pos p) ltac:(lia)) as Hb.
  set (n := (2 * sum_marks l + Z.pos p) / (2 * Z.pos p)) in *.
  split; nia.
Qed.



(** ** More on the recent results *)

Lemma recentResults_firstn (completed : list Response.t) :
  fst (recentResults completed) = firstn 5 completed.
Proof. unfold recentResults. simpl. by rewrite slice_elems_prefix. Qed.

(** X13.  Whatever the order of the list, [recentResults] shows its first
    five entries: at most five, all of them when there are five or fewer,
    each one a completed response, and the list is the shown entries
    followed by the hidden ones. *)
Theorem recentResults_prefix (completed : list Response.t) :
  fst (recentResults completed) = firstn 5 completed /\
  length (fst (recentResults completed)) = Nat.min 5 (length completed) /\
  ((length completed <= 5)%nat -> fst (recentResults completed) = completed) /\
  (forall r, In r (fst (recentResults completed)) -> In r completed) /\
  completed = fst (recentResults completed) ++ skipn 5 completed.
Proof.
  rewrite recentResults_firstn. split; [done|]. split; [apply length_firstn|].
  split; [intros Hlen; by apply firstn_all2|]. split.
  - intros r Hr. rewrite <- (firstn_skipn 5 completed). apply in_or_app. by left.
  - symmetry. apply firstn_skipn.
Qed.

Lemma StronglySorted_split {A : Type} (R : A -> A -> Prop) (n : nat) (l : list A) :
  StronglySorted R l ->
  forall a b, In a (firstn n l) -> In b (skipn n l) -> R a b.
Proof.
  revert l. induction n as [|n IH]; intros l Hl a b Ha Hb; [contradiction|].
  destruct l as [|x l]; [contradiction|].
  apply StronglySorted_inv in Hl. destruct Hl as [Hl Hx].
  simpl in Ha, Hb. destruct Ha as [<-|Ha].
  - rewrite List.Forall_forall in Hx. apply Hx.
    rewrite <- (firstn_skipn n l). apply in_or_app. by right.
  - by apply (IH l).
Qed.

Section RecentOrdered.
Context `{DateParser}.

(** X14.  On a list ordered most recent first the entries shown are
    really the most recent: every entry shown was submitted no earlier
    than every entry left out. *)
Theorem recentResults_most_recent (completed : list Response.t) :
  most_recent_first completed ->
  forall shown hidden,
    In shown (fst (recentResults completed)) ->
    In hidden (skipn 5 completed) ->
    not_before shown hidden.
Proof.
  intros Hsorted shown hidden Hs Hh.
  rewrite recentResults_firstn in Hs.
  by apply (StronglySorted_split _ 5 completed Hsorted).
Qed.

End RecentOrdered.

(** ** More on the counts of the teacher dashboard *)

Lemma number_of_le_length {A : Type} (p : A -> bool) (l : list A) :
  (number_of p l <= length l)%nat.
Proof. induction l as [|x l IH]; simpl; [lia|]. destruct (p x); lia. Qed.

Lemma number_of_complement {A : Type} (p : A -> bool) (l : list A) :
  (number_of p l + number_of (fun x => negb (p x)) l = length l)%nat.
Proof. induction l as [|x l IH]; simpl; [lia|]. destruct (p x); simpl; lia. Qed.

Lemma number_of_app {A : Type} (p : A -> bool) (l1 l2 : list A) :
  number_of p (l1 ++ l2) = (number_of p l1 + number_of p l2)%nat.
Proof. induction l1 as [|x l1 IH]; simpl; [done|]. destruct (p x); lia. Qed.

Lemma number_of_Permutation {A : Type} (p : A -> bool) (l l' : list A) :
  l ≡ₚ l' -> number_of p l = number_of p l'.
Proof.
  induction 1 as [|x l l' _ IH|x y l|l1 l2 l3 _ IH1 _ IH2]; simpl; [done| | |congruence].
  - by rewrite IH.
  - by destruct (p x), (p y).
Qed.

Lemma number_of_map {A B : Type} (f : A -> B) (p : B -> bool) (l : list A) :
  number_of p (List.map f l) = number_of (fun x => p (f x)) l.
Proof. induction l as [|x l IH]; simpl; [done|]. by rewrite IH. Qed.

Lemma quizCounts_number_of (quizzes : list Quiz.t) :
  quizCounts quizzes
  = {| total := length quizzes;
       published := number_of Quiz.is_published quizzes;
       scheduled := number_of (fun q => truthy (Quiz.scheduled_for q)) quizzes |}.
Proof. unfold quizCounts. by rewrite !length_filter_number_of. Qed.

(** X15.  The published and the scheduled figures never exceed the total,
    and the total is the published quizzes plus the drafts. *)
Theorem quizCounts_within_total (quizzes : list Quiz.t) :
  (published (quizCounts quizzes) <= total (quizCounts quizzes))%nat /\
  (scheduled (quizCounts quizzes) <= total (quizCounts quizzes))%nat /\
  (total (quizCounts quizzes)
   = published (quizCounts quizzes)
     + number_of (fun q => negb (Quiz.is_published q)) quizzes)%nat.
Proof.
  rewrite quizCounts_number_of. simpl.
  split; [apply number_of_le_length|]. split; [apply number_of_le_length|].
  symmetry. apply (number_of_complement Quiz.is_published).
Qed.

(** X16.  The counts of two lists put together are the sums of their
    counts, and the counts do not depend on the order of the quizzes. *)
Theorem quizCounts_app_Permutation (l1 l2 : list Quiz.t) :
  quizCounts (l1 ++ l2)
  = {| total := total (quizCounts l1) + total (quizCounts l2);
       published := published (quizCounts l1) + published (quizCounts l2);
       scheduled := scheduled (quizCounts l1) + scheduled (quizCounts l2) |} /\
  (forall l, l1 ≡ₚ l -> quizCounts l1 = quizCounts l).
Proof.
  split.
  - rewrite !quizCounts_number_of. simpl.
    by rewrite length_app, !number_of_app.
  - intros l Hperm. rewrite !quizCounts_number_of.
    by rewrite (Permutation_length Hperm),
      (number_of_Permutation _ _ _ Hperm), (number_of_Permutation _ _ _ Hperm).
Qed.

Section TeacherGrid.
Context `{DateParser}.

(** X17.  The figures of the teacher dashboard agree with its grid: there
    is one card per quiz, as many "Published" badges as the published
    figure says, and as many cards with a "Scheduled:" row as the
    scheduled figure says. *)
Theorem quizCounts_agree_with_grid (quizzes : list Quiz.t) :
  let cards := TeacherDashboard.renderQuizzes quizzes in
  length cards = total (quizCounts quizzes) /\
  number_of (fun c => String.eqb (TeacherDashboard.badge c) "Published") cards
  = published (quizCounts quizzes) /\
  number_of (fun c => bool_decide (is_Some (TeacherDashboard.scheduledDate c))) cards
  = scheduled (quizCounts quizzes).
Proof.
  cbv zeta. rewrite quizCounts_number_of. simpl.
  unfold TeacherDashboard.renderQuizzes. rewrite length_map, !number_of_map.
  split; [done|]. split.
  - apply number_of_ext, List.Forall_forall. intros q _. simpl.
    by destruct (Quiz.is_published q).
  - apply number_of_ext, List.Forall_forall. intros q _. simpl.
    by destruct (truthy (Quiz.scheduled_for q)).
Qed.

End TeacherGrid.


(** ** The sign-in page *)

Lemma handleSignup_accepted (result : option string) (st : AuthPage.State) :
  passwords_accepted (AuthPage.signupForm st) ->
  AuthPage.handleSignup result st
  = let form := AuthPage.signupForm st in
    let call :=
      AuthPage.SignUp (AuthPage.SignupForm.email form)
        (AuthPage.SignupForm.password form) (AuthPage.SignupForm.role form) in
    let cleared :=
      AuthPage.setSuccess None (AuthPage.setError None (AuthPage.setLoading true st)) in
    match result with
    | Some message =>
        (AuthPage.setLoading false (AuthPage.setError (Some message) cleared), [call])
    | None =>
        (AuthPage.setLoading false
           (AuthPage.setSuccess (Some AuthPage.account_created) cleared), [call])
    end.
Proof.
  intros [Hsame Hlen]. unfold AuthPage.handleSignup.
  rewrite (proj2 (String.eqb_eq _ _) Hsame). simpl.
  destruct (Z.ltb_spec (Z.of_nat (String.length
    (AuthPage.SignupForm.password (AuthPage.signupForm st)))) 6); [lia|done].
Qed.

Lemma handleSignup_refused (result : option string) (st : AuthPage.State) :
  ~ passwords_accepted (AuthPage.signupForm st) ->
  snd (AuthPage.handleSignup result st) = [] /\
  AuthPage.success (fst (AuthPage.handleSignup result st)) = None /\
  is_Some (AuthPage.error (fst (AuthPage.handleSignup result st))).
Proof.
  intros Hnot. unfold AuthPage.handleSignup.
  destruct (String.eqb_spec
    (AuthPage.SignupForm.password (AuthPage.signupForm st))
    (AuthPage.SignupForm.confirmPassword (AuthPage.signupForm st))) as [Hsame|Hdiff];
    simpl; [|by eauto].
  destruct (Z.ltb_spec (Z.of_nat (String.length
    (AuthPage.SignupForm.password (AuthPage.signupForm st)))) 6) as [Hshort|Hlong];
    simpl; [by eauto|].
  exfalso. apply Hnot. split; [done|lia].
Qed.

(** X19.  [handleSignup] calls [signUp] if and only if the two passwords
    are equal and have at least six characters; it then calls it once,
    with the e-mail, the password and the role of the form.  Otherwise
    the session provider is not contacted at all. *)
Theorem handleSignup_calls (result : option string) (st : AuthPage.State) :
  let form := AuthPage.signupForm st in
  (passwords_accepted form ->
   snd (AuthPage.handleSignup result st)
   = [AuthPage.SignUp (AuthPage.SignupForm.email form)
        (AuthPage.SignupForm.password form) (AuthPage.SignupForm.role form)]) /\
  (~ passwords_accepted form -> snd (AuthPage.handleSignup result st) = []).
Proof.
  split.
  - intros Hok. rewrite (handleSignup_accepted _ _ Hok). by destruct result.
  - intros Hnot. by destruct (handleSignup_refused result st Hnot).
Qed.

(** Facts about the banners once the handler has been run on a case. *)
Ltac banner_facts :=
  split_and!;
  repeat
    match goal with
    | |- _ <-> _ => split
    | |- ~ _ => intros ?
    | |- _ -> _ => intros ?
    | H : _ /\ _ |- _ => destruct H
    | H : is_Some None |- _ => destruct H as [? ?]; discriminate
    end;
  try done; try lia; try congruence; try (by eexists); split_and!; try done; lia.

(** X20.  After [handleSignup] the page is never left loading and never
    shows both an error and a success: the success message is set exactly
    when the form was accepted and [signUp] reported no error.  Unequal
    passwords are reported as such even when they are also too short, a
    short password is reported when they are equal, and the forms are
    left as typed. *)
Theorem handleSignup_state (result : option string) (st : AuthPage.State) :
  let form := AuthPage.signupForm st in
  let st' := fst (AuthPage.handleSignup result st) in
  AuthPage.loading st' = false /\
  ~ (is_Some (AuthPage.error st') /\ is_Some (AuthPage.success st')) /\
  (is_Some (AuthPage.success st') <-> passwords_accepted form /\ result = None) /\
  (AuthPage.SignupForm.password form <> AuthPage.SignupForm.confirmPassword form ->
   AuthPage.error st' = Some "Passwords do not match") /\
  (AuthPage.SignupForm.password form = AuthPage.SignupForm.confirmPassword form ->
   (String.length (AuthPage.SignupForm.password form) < 6)%nat ->
   AuthPage.error st' = Some "Password must be at least 6 characters") /\
  (passwords_accepted form -> AuthPage.error st' = result) /\
  AuthPage.signupForm st' = form /\
  AuthPage.loginForm st' = AuthPage.loginForm st.
Proof.
  cbv zeta. unfold passwords_accepted, AuthPage.handleSignup.
  destruct (String.eqb_spec
    (AuthPage.SignupForm.password (AuthPage.signupForm st))
    (AuthPage.SignupForm.confirmPassword (AuthPage.signupForm st))) as [Hsame|Hdiff];
    cbn [negb]; [|simpl; banner_facts].
  destruct (Z.ltb_spec (Z.of_nat (String.length
    (AuthPage.SignupForm.password (AuthPage.signupForm st)))) 6) as [Hshort|Hlong];
    [simpl; banner_facts|].
  destruct result as [message|]; simpl; banner_facts.
Qed.

(** X21.  [handleLogin] sends whatever the form holds, once and without
    any check, replaces the error by the answer of [signIn] and ends not
    loading, but it leaves the success message alone: after a sign-up
    that succeeded, a sign-in that fails leaves both the new error and
    the old success message on the page. *)
Theorem handleLogin_keeps_success (result : option string) (st : AuthPage.State) :
  let st' := fst (AuthPage.handleLogin result st) in
  snd (AuthPage.handleLogin result st)
  = [AuthPage.SignIn (AuthPage.LoginForm.email (AuthPage.loginForm st))
       (AuthPage.LoginForm.password (AuthPage.loginForm st))] /\
  AuthPage.loading st' = false /\
  AuthPage.error st' = result /\
  AuthPage.success st' = AuthPage.success st /\
  (passwords_accepted (AuthPage.signupForm st) ->
   forall message,
     let after := fst (AuthPage.handleLogin (Some message)
                         (fst (AuthPage.handleSignup None st))) in
     AuthPage.error after = Some message /\
     AuthPage.success after = Some AuthPage.account_created).
Proof.
  cbv zeta. unfold AuthPage.handleLogin. simpl.
  split; [done|]. split; [done|]. split; [by destruct result|].
  split; [by destruct result|].
  intros Hok message. by rewrite (handleSignup_accepted _ _ Hok).
Qed.

(** The role of the sign-up form stays one the selector offers. *)
Lemma step_offered_role (e : AuthPage.Event) (st : AuthPage.State) :
  offered_role (AuthPage.SignupForm.role (AuthPage.signupForm st)) ->
  offered_role
    (AuthPage.SignupForm.role (AuthPage.signupForm (fst (AuthPage.step e st)))).
Proof.
  intros Hrole. destruct e as [v|v|v|item|v|v|result|result]; simpl; try done.
  - destruct item; [by left|by right].
  - unfold AuthPage.handleLogin. by destruct result.
  - unfold AuthPage.handleSignup.
    repeat (match goal with |- context [if ?b then _ else _] => destruct b end;
            simpl; try done).
    by destruct result.
Qed.

Lemma step_loading (e : AuthPage.Event) (st : AuthPage.State) :
  AuthPage.loading st = false -> AuthPage.loading (fst (AuthPage.step e st)) = false.
Proof.
  intros Hl. destruct e as [v|v|v|item|v|v|result|result]; simpl; try done.
  - unfold AuthPage.handleSignup.
    repeat (match goal with |- context [if ?b then _ else _] => destruct b end;
            simpl; try done).
    by destruct result.
Qed.

Lemma passwords_accepted_dec (form : AuthPage.SignupForm.t) :
  passwords_accepted form \/ ~ passwords_accepted form.
Proof.
  unfold passwords_accepted.
  destruct (String.eqb_spec (AuthPage.SignupForm.password form)
              (AuthPage.SignupForm.confirmPassword form)) as [Hsame|Hdiff];
    [|right; tauto].
  destruct (le_lt_dec 6 (String.length (AuthPage.SignupForm.password form)));
    [left; tauto|right; lia].
Qed.

Lemma step_calls (e : AuthPage.Event) (st : AuthPage.State) :
  offered_role (AuthPage.SignupForm.role (AuthPage.signupForm st)) ->
  forall email password role,
    In (AuthPage.SignUp email password role) (snd (AuthPage.step e st)) ->
    offered_role role /\ (6 <= String.length password)%nat.
Proof.
  intros Hrole email password role.
  destruct e as [v|v|v|item|v|v|result|result]; simpl; try done.
  - intros [Hc|[]]. discriminate.
  - destruct (passwords_accepted_dec (AuthPage.signupForm st)) as [Hok|Hnot].
    + rewrite (handleSignup_accepted _ _ Hok).
      destruct result; simpl; intros [Hc|[]]; injection Hc as <- <- <-;
        (split; [done|apply Hok]).
    + destruct (handleSignup_refused result st Hnot) as [-> _]. intros [].
Qed.

Lemma run_invariant (events : list AuthPage.Event) (st : AuthPage.State) :
  offered_role (AuthPage.SignupForm.role (AuthPage.signupForm st)) ->
  AuthPage.loading st = false ->
  offered_role
    (AuthPage.SignupForm.role (AuthPage.signupForm (fst (AuthPage.run events st)))) /\
  AuthPage.loading (fst (AuthPage.run events st)) = false /\
  forall email password role,
    In (AuthPage.SignUp email password role) (snd (AuthPage.run events st)) ->
    offered_role role /\ (6 <= String.length password)%nat.
Proof.
  revert st. induction events as [|e events IH]; intros st Hrole Hload; simpl.
  - split; [done|]. split; [done|]. intros ? ? ? [].
  - pose proof (step_offered_role e st Hrole) as Hrole'.
    pose proof (step_loading e st Hload) as Hload'.
    pose proof (step_calls e st Hrole) as Hcalls.
    destruct (AuthPage.step e st) as [st' calls]. simpl in *.
    destruct (IH st' Hrole' Hload') as (IHrole & IHload & IHcalls).
    destruct (AuthPage.run events st') as [st'' calls']. simpl in *.
    split; [done|]. split; [done|].
    intros email password role Hin. apply in_app_or in Hin.
    destruct Hin as [Hin|Hin]; [by eapply Hcalls|by eapply IHcalls].
Qed.

(** X22.  Whatever a visitor does on the page, starting from its initial
    state: the role of the sign-up form is "student" or "teacher", the
    page is not left loading, and every call of [signUp] that was made
    carries one of these two roles and a password of at least six
    characters. *)
Theorem signUp_calls_well_formed (events : list AuthPage.Event) :
  let st := fst (AuthPage.run events AuthPage.initial) in
  let calls := snd (AuthPage.run events AuthPage.initial) in
  offered_role (AuthPage.SignupForm.role (AuthPage.signupForm st)) /\
  AuthPage.loading st = false /\
  forall email password role,
    In (AuthPage.SignUp email password role) calls ->
    offered_role role /\ (6 <= String.length password)%nat.
Proof. apply run_invariant; [by left|done]. Qed.

(** ** The index page *)

Lemma role_is_Some (userRole : option string) (role : string) :
  Index.role_is userRole role = true <-> userRole = Some role.
Proof.
  destruct userRole as [r|]; simpl; [|split; discriminate].
  rewrite String.eqb_eq. split; congruence.
Qed.

(** X23.  The index page shows the teacher dashboard exactly to a signed-in
    user whose role is "teacher" once loading is over, and the student
    dashboard exactly to one whose role is "student"; a visitor who is not
    signed in gets neither.  A signed-in user whose role is one the sign-up
    form can hold always gets the dashboard of that role, never the
    "setting up" screen. *)
Theorem Index_dashboards (user userRole : option string) (loading : bool) :
  (Index.Index user userRole loading = Index.TeacherDashboardView <->
   loading = false /\ is_Some user /\ userRole = Some "teacher") /\
  (Index.Index user userRole loading = Index.StudentDashboardView <->
   loading = false /\ is_Some user /\ userRole = Some "student") /\
  (forall (events : list AuthPage.Event) (u : string),
     let role :=
       AuthPage.SignupForm.role
         (AuthPage.signupForm (fst (AuthPage.run events AuthPage.initial))) in
     Index.Index (Some u) (Some role) false
     = if String.eqb role "teacher" then Index.TeacherDashboardView
       else Index.StudentDashboardView).
Proof.
  split; [|split].
  - unfold Index.Index. destruct loading; [split; [discriminate|intros [? _]; discriminate]|].
    destruct user as [u|]; [|split; [discriminate|intros (_ & [x Hx] & _); discriminate]].
    destruct (Index.role_is userRole "teacher") eqn:Ht.
    + apply role_is_Some in Ht. split; [by eauto|done].
    + assert (userRole <> Some "teacher") by (intros Hr; apply role_is_Some in Hr; congruence).
      destruct (Index.role_is userRole "student");
        (split; [discriminate|intros (_ & _ & ?); done]).
  - unfold Index.Index. destruct loading; [split; [discriminate|intros [? _]; discriminate]|].
    destruct user as [u|]; [|split; [discriminate|intros (_ & [x Hx] & _); discriminate]].
    destruct (Index.role_is userRole "teacher") eqn:Ht.
    + apply role_is_Some in Ht. subst. split; [discriminate|intros (_ & _ & ?); discriminate].
    + destruct (Index.role_is userRole "student") eqn:Hs.
      * apply role_is_Some in Hs. split; [by eauto|done].
      * assert (userRole <> Some "student")
          by (intros Hr; apply role_is_Some in Hr; congruence).
        split; [discriminate|intros (_ & _ & ?); done].
  - intros events u. cbv zeta.
    destruct (run_invariant events AuthPage.initial) as [[-> | ->] _];
      [by left|done|reflexivity|reflexivity].
Qed.

(** ** The properties on sample rows, with ISO dates *)

#[local] Existing Instance ISO_dates.

Example may_first_10h_parses :
  Date_parse "2024-05-01T10:00:00Z" = Some may_first_10h.
Proof. reflexivity. Qed.

Lemma availability_classifies_witness :
  valid_schedule may_quiz /\ availability may_quiz may_first_10h = Available.
Proof.
  assert (Hvalid : valid_schedule may_quiz).
  { intros s Hs. injection Hs as <-. exists may_first_10h. reflexivity. }
  split; [exact Hvalid|].
  destruct (availability_classifies may_quiz may_first_10h Hvalid) as [_ Hpublished].
  destruct (Hpublished eq_refl) as (_ & _ & Hboundary).
  apply Hboundary. exists "2024-05-01T10:00:00Z". split; reflexivity.
Defined.

Example may_quiz_one_millisecond_early :
  availability may_quiz (may_first_10h - 1) = ScheduledFuture.
Proof. reflexivity. Qed.

Example unpublished_past_quiz :
  availability (quiz_row "q4" false (Some "2023-01-15T09:30:00+00:00")) may_first_10h
  = NotPublished.
Proof. reflexivity. Qed.

Lemma three_responses_percentages : Forall percentage three_responses.
Proof. repeat constructor; unfold percentage; simpl; lia. Defined.

Lemma averageScore_rounded_mean_of_percentages_witness :
  three_responses <> [] /\
  Forall percentage three_responses /\
  average (studentStats sample_quizzes three_responses) = Some 80.
Proof.
  assert (Hne : three_responses <> []) by discriminate.
  split; [exact Hne|]. split; [exact three_responses_percentages|].
  destruct (averageScore_rounded_mean_of_percentages sample_quizzes three_responses
              Hne three_responses_percentages) as [_ Hexample].
  unfold three_responses. apply Hexample; reflexivity.
Defined.

(** C4, as the specification words it, fails on marks that are not
    integers: for 56.1, 47.8 and 98.6 the page shows 68, because the sum of
    the three doubles is rounded to 202.5, while their arithmetic mean is
    below 67.5 and 67 is the integer nearest to it. *)
Lemma averageScore_number_not_nearest :
  ~ (exists (n : Z) (m : Q),
       averageScore_number fractional_marks = Some n /\
       mean_value fractional_marks = Some m /\
       nearest_integer n m).
Proof.
  intros (n & m & Hn & Hm & Hnear).
  vm_compute in Hn. injection Hn as <-.
  vm_compute in Hm. injection Hm as <-.
  specialize (Hnear 67). vm_compute in Hnear. by apply Hnear.
Qed.

Example fractional_marks_average : averageScore_number fractional_marks = Some 68.
Proof. vm_compute. reflexivity. Qed.

Example fractional_marks_mean_below_half :
  exists m, mean_value fractional_marks = Some m /\ (m < 135 # 2)%Q.
Proof. eexists. split; [vm_compute; reflexivity|]. vm_compute. reflexivity. Qed.

(** On integral marks the two forms of the expression agree. *)
Example three_responses_as_numbers :
  averageScore_number (List.map (fun r => Number_of_mark (Response.total_marks r)) three_responses)
  = averageScore three_responses.
Proof. vm_compute. reflexivity. Qed.

Example seven_responses_as_numbers :
  averageScore_number (List.map (fun r => Number_of_mark (Response.total_marks r)) seven_responses)
  = averageScore seven_responses.
Proof. vm_compute. reflexivity. Qed.

Lemma averageScore_percentage_witness :
  Forall percentage seven_responses /\
  exists n, average (studentStats sample_quizzes seven_responses) = Some n /\ 0 <= n <= 100.
Proof.
  assert (Hall : Forall percentage seven_responses).
  { repeat constructor; unfold percentage; simpl; lia. }
  split; [exact Hall|].
  apply (averageScore_percentage sample_quizzes seven_responses Hall).
Defined.

Example seven_responses_average :
  average (studentStats sample_quizzes seven_responses) = Some 65.
Proof. reflexivity. Qed.

Lemma quizCounts_counts_witness :
  Forall schedule_not_blank sample_quizzes /\
  scheduled (quizCounts sample_quizzes) = 2%nat.
Proof.
  assert (Hall : Forall schedule_not_blank sample_quizzes).
  { repeat constructor; unfold schedule_not_blank; simpl; discriminate. }
  split; [exact Hall|].
  destruct (quizCounts_counts sample_quizzes Hall) as (_ & _ & Hscheduled & _).
  rewrite Hscheduled. reflexivity.
Defined.

Lemma filtering_antimonotone_witness :
  ({["q1"]} : gset string) ⊆ {["q1"; "q3"]} /\
  sublist (filteredQuizzes (Some sample_quizzes) {["q1"; "q3"]})
          (filteredQuizzes (Some sample_quizzes) {["q1"]}).
Proof.
  assert (Hsub : ({["q1"]} : gset string) ⊆ {["q1"; "q3"]}) by set_solver.
  split; [exact Hsub|].
  apply (filtering_antimonotone (Some sample_quizzes) _ _ Hsub).
Defined.

Lemma seven_responses_ordered : most_recent_first seven_responses.
Proof.
  unfold most_recent_first, seven_responses.
  repeat
    match goal with
    | |- StronglySorted _ [] => constructor
    | |- StronglySorted _ (_ :: _) => constructor
    | |- Forall _ [] => constructor
    | |- Forall _ (_ :: _) => constructor
    end;
    vm_compute; discriminate.
Defined.

Lemma recentResults_of_ordered_witness :
  most_recent_first seven_responses /\ 0 <= 5 /\
  length (fst (recentResults seven_responses)) = 5%nat /\
  most_recent_first (fst (recentResults seven_responses)) /\
  snd (recentResults seven_responses) = seven_responses.
Proof.
  assert (Hlimit : 0 <= 5) by lia.
  split; [exact seven_responses_ordered|]. split; [exact Hlimit|].
  destruct (recentResults_of_ordered seven_responses 5 seven_responses_ordered Hlimit)
    as (_ & _ & _ & _ & _ & Hseven).
  apply Hseven. reflexivity.
Defined.

(** C7, as the specification words it, fails: on two responses listed
    oldest first, [recentResults] returns them oldest first. *)
Lemma recentResults_not_sorting :
  ~ most_recent_first (fst (recentResults oldest_first)).
Proof.
  intros Hsorted. apply StronglySorted_inv in Hsorted.
  destruct Hsorted as [_ Hhead]. apply Forall_inv in Hhead.
  vm_compute in Hhead. by apply Hhead.
Qed.

Example recentResults_oldest_first :
  fst (recentResults oldest_first) = oldest_first.
Proof. reflexivity. Qed.

(** ** The scenarios of the specification *)

Example scenario_A :
  attemptable quiz_A may_first_10h ∅ = true /\
  In quiz_A (fst (fetchData (Some (published_rows [quiz_A; quiz_B; quiz_C])) (Some []))).
Proof. split; [reflexivity|]. vm_compute. by left. Qed.

Example scenario_B :
  attemptable quiz_B may_first_10h ∅ = false /\
  availability quiz_B may_first_10h = ScheduledFuture.
Proof. split; reflexivity. Qed.

Example scenario_C :
  isQuizAvailable quiz_C may_first_10h = true /\
  fst (fetchData (Some (published_rows [quiz_A; quiz_B; quiz_C])) (Some [response_to_C]))
  = [quiz_A; quiz_B].
Proof. split; reflexivity. Qed.

Example quizCounts_sample :
  quizCounts sample_quizzes = {| total := 4; published := 2; scheduled := 2 |}.
Proof. reflexivity. Qed.

(** ** The properties of the handlers on sample rows *)

Lemma isQuizAvailable_monotone_witness :
  may_first_10h <= may_first_10h + 60000 /\
  isQuizAvailable may_quiz may_first_10h = true /\
  isQuizAvailable may_quiz (may_first_10h + 60000) = true.
Proof.
  assert (Hle : may_first_10h <= may_first_10h + 60000) by (unfold may_first_10h; lia).
  assert (Hnow : isQuizAvailable may_quiz may_first_10h = true) by reflexivity.
  split; [exact Hle|]. split; [exact Hnow|].
  apply (isQuizAvailable_monotone may_quiz may_first_10h _ Hle Hnow).
Defined.

Lemma unparseable_schedule_never_available_witness :
  Quiz.scheduled_for quiz_with_bad_schedule = Some "next Monday" /\
  "next Monday" <> EmptyString /\
  Date_parse "next Monday" = None /\
  attemptable quiz_with_bad_schedule may_first_10h ∅ = false.
Proof.
  assert (Hs : Quiz.scheduled_for quiz_with_bad_schedule = Some "next Monday")
    by reflexivity.
  assert (Hne : "next Monday" <> EmptyString) by discriminate.
  assert (Hparse : Date_parse "next Monday" = None) by reflexivity.
  split; [exact Hs|]. split; [exact Hne|]. split; [exact Hparse|].
  destruct (unparseable_schedule_never_available quiz_with_bad_schedule _
              Hs Hne Hparse may_first_10h) as (_ & _ & Hnever).
  apply Hnever.
Defined.

Lemma fetchData_same_answered_witness :
  (forall id, answered [response_to_C] id <-> answered [response_to_C; response_to_C] id) /\
  fst (fetchData (Some [quiz_A; quiz_B; quiz_C]) (Some [response_to_C]))
  = fst (fetchData (Some [quiz_A; quiz_B; quiz_C]) (Some [response_to_C; response_to_C])).
Proof.
  assert (Hsame : forall id,
    answered [response_to_C] id <-> answered [response_to_C; response_to_C] id).
  { intros id. unfold answered. simpl.
    split; intros (r & Hr & Hid); exists r; tauto. }
  split; [exact Hsame|].
  apply (fetchData_same_answered _ _ _ Hsame).
Defined.

Lemma averageScore_Permutation_witness :
  Forall percentage three_responses /\
  three_responses ≡ₚ rev three_responses /\
  averageScore three_responses = averageScore (rev three_responses).
Proof.
  assert (Hperm : three_responses ≡ₚ rev three_responses) by apply Permutation_rev.
  split; [exact three_responses_percentages|]. split; [exact Hperm|].
  apply (averageScore_Permutation _ _ three_responses_percentages Hperm).
Defined.

Lemma averageScore_between_witness :
  three_responses <> [] /\
  0 <= 70 /\
  90 <= 100 /\
  Forall (fun r => 70 <= Response.total_marks r <= 90) three_responses /\
  exists n, averageScore three_responses = Some n /\ 70 <= n <= 90.
Proof.
  assert (Hne : three_responses <> []) by discriminate.
  assert (Hlo : 0 <= 70) by lia.
  assert (Hhi : 90 <= 100) by lia.
  assert (Hall : Forall (fun r => 70 <= Response.total_marks r <= 90) three_responses).
  { repeat constructor; simpl; lia. }
  split; [exact Hne|]. split; [exact Hlo|]. split; [exact Hhi|]. split; [exact Hall|].
  apply (averageScore_between 70 90 three_responses Hne Hlo Hhi Hall).
Defined.


Example three_better_average : averageScore three_better_responses = Some 92.
Proof. reflexivity. Qed.

Lemma recentResults_most_recent_witness :
  most_recent_first seven_responses /\
  not_before (response_row "r3" "q3" 80 "2024-05-03T10:00:00Z")
             (response_row "r1" "q1" 70 "2024-05-01T10:00:00Z").
Proof.
  split; [exact seven_responses_ordered|].
  apply (recentResults_most_recent seven_responses seven_responses_ordered).
  - rewrite recentResults_firstn. simpl. tauto.
  - simpl. tauto.
Defined.

(** ** The handlers on sample sessions *)

Example failed_first_load :
  StudentDashboard.stats
    (fst (StudentDashboard.fetchData (Resolved None (Some "timeout")) Rejected
            StudentDashboard.initial))
  = {| availableCount := 0; completedCount := 0; average := Some 0 |}.
Proof. reflexivity. Qed.

Example short_mismatched_passwords :
  AuthPage.run
    [AuthPage.SignupEmailChange "ada@example.org";
     AuthPage.SignupRoleChange AuthPage.TeacherItem;
     AuthPage.SignupPasswordChange "abc";
     AuthPage.SignupConfirmChange "abd";
     AuthPage.SignupSubmit None]
    AuthPage.initial
  = ({| AuthPage.loading := false;
        AuthPage.error := Some "Passwords do not match";
        AuthPage.success := None;
        AuthPage.loginForm := AuthPage.LoginForm.mk EmptyString EmptyString;
        AuthPage.signupForm :=
          AuthPage.SignupForm.mk "ada@example.org" "abc" "abd" "teacher" |}, []).
Proof. reflexivity. Qed.

Example accepted_sign_up :
  snd (AuthPage.run
         [AuthPage.SignupEmailChange "ada@example.org";
          AuthPage.SignupPasswordChange "abcdef";
          AuthPage.SignupConfirmChange "abcdef";
          AuthPage.SignupSubmit None]
         AuthPage.initial)
  = [AuthPage.SignUp "ada@example.org" "abcdef" "student"].
Proof. reflexivity. Qed.
